(** * Bounded per-device saved-account registry (convex/users.ts)

    A shallow embedding of the [saveAccount] mutation and of the
    [getSavedAccounts] and [getAccountCount] queries of convex/users.ts,
    over the tables declared in convex/schema.ts.

    The record store is the platform's document database.  What the
    handlers rely on is modelled as follows.
    - A table is the list of its documents in creation order: a full
      table scan ([ctx.db.query(t)]) visits documents by ascending
      [_creationTime], [insert] appends, [patch] and [delete] act on the
      document with the given [_id] and keep the order of the others.
    - [.filter(p)] keeps the documents satisfying [p], [.first()] is the
      first of them, [.collect()] all of them, [.order("desc")] visits the
      same index backwards and [.take(n)] keeps the first [n] results.
    - Document ids are allocated from a counter of the store.
    - A handler is a computation over the store that may throw; a
      mutation that throws commits nothing.
    - [lastUsed], [lastSeen], [lastActivity] hold integer millisecond
      readings of [Date.now()]; the readings one handler run obtains are
      given by a function from the rank of the reading to its value. *)

From Stdlib Require Import String ZArith NArith List Bool Arith Lia.
From ExtLib Require Import Structures.Monad Structures.MonadState
  Structures.MonadExc Data.Monads.StateMonad Data.Monads.EitherMonad.
Import ListNotations.
Import MonadNotation.
Local Open Scope monad_scope.
Local Open Scope string_scope.

#[local] Existing Instance Monad_stateT.

(** ** Documents (convex/schema.ts) *)

(** Document ids ([Id<table>]) are opaque; a counter value stands for one. *)
Abbreviation Id := N (only parsing).

Record Preferences := mkPreferences
  { theme : option string;
    notifications : option bool;
    sound : option bool }.

Module SavedAccounts.
Record doc := mk
  { _id : Id;
    deviceId : string;
    username : string;
    color : string;
    status : string;
    avatar : option string;
    preferences : Preferences;
    lastUsed : Z }.
End SavedAccounts.

Module Users.
Record doc := mk
  { _id : Id;
    username : string;
    color : string;
    status : string;
    avatar : option string;
    preferences : Preferences;
    lastSeen : option Z;
    isOnline : option bool;
    lastActivity : option Z }.
End Users.

Module Messages.
Record doc := mk
  { _id : Id;
    text : string;
    username : string;
    timestamp : Z;
    color : string;
    edited : option bool;
    deleted : option bool;
    reactions : option (list (string * string));
    delivered : option bool;
    readBy : option (list string) }.
End Messages.

Module UserActivity.
Record doc := mk
  { _id : Id;
    username : string;
    type : string;
    timestamp : Z;
    details : option string }.
End UserActivity.

Module Typing.
Record doc := mk
  { _id : Id;
    username : string;
    timestamp : Z }.
End Typing.

(** ** The store *)

Record Db := mkDb
  { savedAccounts : list SavedAccounts.doc;
    users : list Users.doc;
    messages : list Messages.doc;
    userActivity : list UserActivity.doc;
    typing : list Typing.doc;
    next_id : Id }.

Definition empty_db : Db := mkDb [] [] [] [] [] 0%N.

Definition set_savedAccounts (t : list SavedAccounts.doc) (db : Db) : Db :=
  mkDb t (users db) (messages db) (userActivity db) (typing db) (next_id db).

Definition set_users (t : list Users.doc) (db : Db) : Db :=
  mkDb (savedAccounts db) t (messages db) (userActivity db) (typing db)
       (next_id db).

Definition bump_id (db : Db) : Db :=
  mkDb (savedAccounts db) (users db) (messages db) (userActivity db)
       (typing db) (N.succ (next_id db)).

(** Table updates by document id. *)
Section Table.
Context {D : Type} (id_of : D -> Id).

Definition tbl_patch (i : Id) (f : D -> D) (t : list D) : list D :=
  map (fun d => if N.eqb (id_of d) i then f d else d) t.

Definition tbl_delete (i : Id) (t : list D) : list D :=
  filter (fun d => negb (N.eqb (id_of d) i)) t.
End Table.

(** ** Handlers as computations over the store *)

Inductive Error := TypeError.

Definition M := stateT Db (sum Error).

Definition run {A} (c : M A) (db : Db) : Error + (A * Db) := runStateT c db.

(** [ctx.db.query(table).filter(p)]: the matching documents, in scan order. *)
Definition query_filter {D} (table : Db -> list D) (p : D -> bool)
  : M (list D) :=
  gets (fun db => filter p (table db)).

(** [.first()], [.collect()], [.order("desc")], [.take(n)] on a result. *)
Definition first {D} (q : M (list D)) : M (option D) :=
  l <- q ;; ret (hd_error l).

Definition collect {D} (q : M (list D)) : M (list D) := q.

Definition order_desc {D} (q : M (list D)) : M (list D) :=
  l <- q ;; ret (rev l).

Definition take {D} (n : nat) (q : M (list D)) : M (list D) :=
  l <- q ;; ret (firstn n l).

(** Fields written by a patch or an insert on [savedAccounts]. *)
Record SavedAccountFields := mkSAF
  { f_color : string;
    f_status : string;
    f_avatar : option string;
    f_preferences : Preferences;
    f_lastUsed : Z }.

Definition patch_savedAccount (f : SavedAccountFields)
    (d : SavedAccounts.doc) : SavedAccounts.doc :=
  SavedAccounts.mk (SavedAccounts._id d) (SavedAccounts.deviceId d)
    (SavedAccounts.username d) (f_color f) (f_status f) (f_avatar f)
    (f_preferences f) (f_lastUsed f).

Definition db_patch_savedAccounts (i : Id) (f : SavedAccountFields)
  : M unit :=
  db <- get ;;
  put (set_savedAccounts
         (tbl_patch SavedAccounts._id i (patch_savedAccount f)
            (savedAccounts db)) db).

Definition db_delete_savedAccounts (i : Id) : M unit :=
  db <- get ;;
  put (set_savedAccounts (tbl_delete SavedAccounts._id i (savedAccounts db))
         db).

Definition db_insert_savedAccounts (device name : string)
    (f : SavedAccountFields) : M Id :=
  db <- get ;;
  let i := next_id db in
  put (bump_id
         (set_savedAccounts
            (savedAccounts db ++
               [SavedAccounts.mk i device name (f_color f) (f_status f)
                  (f_avatar f) (f_preferences f) (f_lastUsed f)]) db)) ;;
  ret i.

(** Fields written by the patch or the insert on [users]. *)
Record UserFields := mkUF
  { u_color : string;
    u_status : string;
    u_avatar : option string;
    u_preferences : Preferences;
    u_lastSeen : Z;
    u_isOnline : bool;
    u_lastActivity : Z }.

Definition patch_user (f : UserFields) (d : Users.doc) : Users.doc :=
  Users.mk (Users._id d) (Users.username d) (u_color f) (u_status f)
    (u_avatar f) (u_preferences f) (Some (u_lastSeen f))
    (Some (u_isOnline f)) (Some (u_lastActivity f)).

Definition new_user (i : Id) (name : string) (f : UserFields) : Users.doc :=
  Users.mk i name (u_color f) (u_status f) (u_avatar f) (u_preferences f)
    (Some (u_lastSeen f)) (Some (u_isOnline f)) (Some (u_lastActivity f)).

Definition db_patch_users (i : Id) (f : UserFields) : M unit :=
  db <- get ;;
  put (set_users (tbl_patch Users._id i (patch_user f) (users db)) db).

Definition db_insert_users (name : string) (f : UserFields) : M Id :=
  db <- get ;;
  let i := next_id db in
  put (bump_id (set_users (users db ++ [new_user i name f]) db)) ;;
  ret i.

(** [Array.prototype.reduce] without an initial value: the first element
    seeds the accumulator; on an empty array it throws a TypeError. *)
Definition reduce {A} (f : A -> A -> A) (l : list A) : option A :=
  match l with
  | [] => None
  | x :: xs => Some (fold_left f xs x)
  end.

(** ** convex/users.ts *)

Module Args.
Record t := mk
  { deviceId : string;
    username : string;
    color : string;
    status : string;
    avatar : option string;
    preferences : Preferences }.
End Args.

Definition Clock := nat -> Z.

Definition same_device (device : string) (d : SavedAccounts.doc) : bool :=
  String.eqb (SavedAccounts.deviceId d) device.

Definition same_account (device name : string) (d : SavedAccounts.doc)
  : bool :=
  String.eqb (SavedAccounts.deviceId d) device
  && String.eqb (SavedAccounts.username d) name.

Definition same_user (name : string) (d : Users.doc) : bool :=
  String.eqb (Users.username d) name.

(** The callback of the eviction scan:
    [(oldest, current) => current.lastUsed < oldest.lastUsed ? current : oldest]. *)
Definition older (oldest current : SavedAccounts.doc) : SavedAccounts.doc :=
  if Z.ltb (SavedAccounts.lastUsed current) (SavedAccounts.lastUsed oldest)
  then current else oldest.

Definition saveAccount (now : Clock) (args : Args.t) : M unit :=
  existingAccount <-
    first (query_filter savedAccounts
             (same_account (Args.deviceId args) (Args.username args))) ;;
  match existingAccount with
  | Some existing =>
      db_patch_savedAccounts (SavedAccounts._id existing)
        (mkSAF (Args.color args) (Args.status args) (Args.avatar args)
           (Args.preferences args) (now 0%nat))
  | None =>
      accounts <-
        collect (query_filter savedAccounts
                   (same_device (Args.deviceId args))) ;;
      (if Nat.leb 3 (length accounts) then
         match reduce older accounts with
         | Some oldestAccount =>
             db_delete_savedAccounts (SavedAccounts._id oldestAccount)
         | None => raise TypeError
         end
       else ret tt) ;;
      _ <- db_insert_savedAccounts (Args.deviceId args) (Args.username args)
             (mkSAF (Args.color args) (Args.status args) (Args.avatar args)
                (Args.preferences args) (now 0%nat)) ;;
      user <- first (query_filter users (same_user (Args.username args))) ;;
      match user with
      | Some u =>
          db_patch_users (Users._id u)
            (mkUF (Args.color args) (Args.status args) (Args.avatar args)
               (Args.preferences args) (now 1%nat) true (now 2%nat))
      | None =>
          _ <- db_insert_users (Args.username args)
                 (mkUF (Args.color args) (Args.status args) (Args.avatar args)
                    (Args.preferences args) (now 1%nat) true (now 2%nat)) ;;
          ret tt
      end
  end.

Definition getSavedAccounts (device : string) : M (list SavedAccounts.doc) :=
  take 3 (order_desc (query_filter savedAccounts (same_device device))).

Record AccountCount := mkAccountCount
  { count : nat;
    maxAccounts : nat }.

Definition getAccountCount (device : string) : M AccountCount :=
  accounts <- collect (query_filter savedAccounts (same_device device)) ;;
  ret (mkAccountCount (length accounts) 3).

(** ** Runs *)

(** One client call of [saveAccount]: the clock readings of the run and
    the arguments. *)
Record Call := mkCall
  { call_now : Clock;
    call_args : Args.t }.

(** The store after a call; a run that throws commits nothing. *)
Definition step (db : Db) (c : Call) : Db :=
  match run (saveAccount (call_now c) (call_args c)) db with
  | inr (_, db') => db'
  | inl _ => db
  end.

Definition run_calls (calls : list Call) (db : Db) : Db :=
  fold_left step calls db.

(** The result of a query handler on a store. *)
Definition result {A} (c : M A) (db : Db) : option A :=
  match run c db with
  | inr (a, _) => Some a
  | inl _ => None
  end.

Definition device_accounts (device : string) (db : Db)
  : list SavedAccounts.doc :=
  filter (same_device device) (savedAccounts db).

Definition count_of (device : string) (db : Db) : nat :=
  length (device_accounts device db).

(** The scenario of the account registry: one device, four user names. *)
Definition prefs0 : Preferences :=
  mkPreferences (Some "light") (Some true) (Some true).

Definition save (device name col : string) (t : Z) : Call :=
  mkCall (fun _ => t) (Args.mk device name col "" None prefs0).

Definition scenario3 : Db :=
  run_calls [save "D1" "alice" "#000000" 1; save "D1" "bob" "#000000" 2;
             save "D1" "carol" "#000000" 3] empty_db.

Definition scenario4 : Db := step scenario3 (save "D1" "dave" "#000000" 4).

Definition scenario5 : Db := step scenario4 (save "D1" "bob" "#ff0000" 5).

(** ** The two paths of [saveAccount] as store transformers *)

Definition lookup_account (args : Args.t) (db : Db)
  : option SavedAccounts.doc :=
  hd_error (filter (same_account (Args.deviceId args) (Args.username args))
              (savedAccounts db)).

Definition lookup_user (name : string) (db : Db) : option Users.doc :=
  hd_error (filter (same_user name) (users db)).

(** The document the eviction scan selects, when the scan runs. *)
Definition evicted (device : string) (db : Db) : option SavedAccounts.doc :=
  if Nat.leb 3 (count_of device db)
  then reduce older (device_accounts device db)
  else None.

Definition after_evict (device : string) (db : Db)
  : list SavedAccounts.doc :=
  match evicted device db with
  | Some o => tbl_delete SavedAccounts._id (SavedAccounts._id o)
                (savedAccounts db)
  | None => savedAccounts db
  end.

Definition account_fields (now : Clock) (args : Args.t)
  : SavedAccountFields :=
  mkSAF (Args.color args) (Args.status args) (Args.avatar args)
    (Args.preferences args) (now 0%nat).

Definition user_fields (now : Clock) (args : Args.t) : UserFields :=
  mkUF (Args.color args) (Args.status args) (Args.avatar args)
    (Args.preferences args) (now 1%nat) true (now 2%nat).

Definition new_account (i : Id) (now : Clock) (args : Args.t)
  : SavedAccounts.doc :=
  SavedAccounts.mk i (Args.deviceId args) (Args.username args)
    (Args.color args) (Args.status args) (Args.avatar args)
    (Args.preferences args) (now 0%nat).

Definition updated (now : Clock) (args : Args.t)
    (existing : SavedAccounts.doc) (db : Db) : Db :=
  set_savedAccounts
    (tbl_patch SavedAccounts._id (SavedAccounts._id existing)
       (patch_savedAccount (account_fields now args)) (savedAccounts db)) db.

Definition created (now : Clock) (args : Args.t) (db : Db) : Db :=
  let accounts' :=
    (after_evict (Args.deviceId args) db
       ++ [new_account (next_id db) now args])%list in
  match lookup_user (Args.username args) db with
  | Some u =>
      mkDb accounts'
        (tbl_patch Users._id (Users._id u) (patch_user (user_fields now args))
           (users db))
        (messages db) (userActivity db) (typing db) (N.succ (next_id db))
  | None =>
      mkDb accounts'
        (users db ++
           [new_user (N.succ (next_id db)) (Args.username args)
              (user_fields now args)])%list
        (messages db) (userActivity db) (typing db)
        (N.succ (N.succ (next_id db)))
  end.

(** ** Well-formed stores *)

Fixpoint distinct (l : list Id) : bool :=
  match l with
  | [] => true
  | i :: r => negb (existsb (N.eqb i) r) && distinct r
  end.

Definition all_ids (db : Db) : list Id :=
  (map SavedAccounts._id (savedAccounts db)
     ++ map Users._id (users db)
     ++ map Messages._id (messages db)
     ++ map UserActivity._id (userActivity db)
     ++ map Typing._id (typing db))%list.

(** Document ids are pairwise different and below the id counter. *)
Definition wf (db : Db) : bool :=
  distinct (all_ids db) && forallb (fun i => N.ltb i (next_id db)) (all_ids db).

(** The documents of [db] that are gone from [db'], by id. *)
Definition deleted_accounts (db db' : Db) : list SavedAccounts.doc :=
  filter (fun d => negb (existsb (fun d' => N.eqb (SavedAccounts._id d')
                                              (SavedAccounts._id d))
                           (savedAccounts db')))
         (savedAccounts db).

(** A result list is ordered by [lastUsed], largest first. *)
Fixpoint lastUsed_desc (l : list SavedAccounts.doc) : bool :=
  match l with
  | [] => true
  | d :: r =>
      forallb (fun d' => Z.leb (SavedAccounts.lastUsed d')
                           (SavedAccounts.lastUsed d)) r
      && lastUsed_desc r
  end.

(** A store holding four accounts of one device. *)
Definition crowded : Db :=
  mkDb [SavedAccounts.mk 0%N "D1" "alice" "#000000" "" None prefs0 1;
        SavedAccounts.mk 1%N "D1" "bob" "#000000" "" None prefs0 2;
        SavedAccounts.mk 2%N "D1" "carol" "#000000" "" None prefs0 3;
        SavedAccounts.mk 3%N "D1" "dave" "#000000" "" None prefs0 4]
       [] [] [] [] 4%N.

(** ** The other handlers of convex/users.ts *)

Definition set_userActivity (t : list UserActivity.doc) (db : Db) : Db :=
  mkDb (savedAccounts db) (users db) (messages db) t (typing db) (next_id db).

(** [ctx.db.patch(id, fields)] on [users], the written fields given as a
    function on the document. *)
Definition db_patch_users_with (i : Id) (f : Users.doc -> Users.doc)
  : M unit :=
  db <- get ;;
  put (set_users (tbl_patch Users._id i f (users db)) db).

(** [ctx.db.insert("users", fields)]: the document receives the next id. *)
Definition db_insert_users_doc (mk : Id -> Users.doc) : M Id :=
  db <- get ;;
  let i := next_id db in
  put (bump_id (set_users (users db ++ [mk i]) db)) ;;
  ret i.

Definition db_insert_userActivity (name ty : string) (t : Z)
    (det : option string) : M Id :=
  db <- get ;;
  let i := next_id db in
  put (bump_id
         (set_userActivity
            (userActivity db ++ [UserActivity.mk i name ty t det]) db)) ;;
  ret i.

Definition no_preferences : Preferences := mkPreferences None None None.

(** [getPreferences]: [user?.preferences].  The read goes through the
    index [by_username], which visits the documents of one username in
    creation order, as the filtered scan does. *)
Definition getPreferences (name : string) : M (option Preferences) :=
  user <- first (query_filter users (same_user name)) ;;
  ret (option_map Users.preferences user).

Definition updatePreferences (now : Clock) (name : string)
    (prefs : Preferences) : M unit :=
  user <- first (query_filter users (same_user name)) ;;
  match user with
  | Some u =>
      db_patch_users_with (Users._id u)
        (fun d =>
           Users.mk (Users._id d) (Users.username d) (Users.color d)
             (Users.status d) (Users.avatar d) prefs (Some (now 0%nat))
             (Users.isOnline d) (Some (now 1%nat)))
  | None =>
      _ <- db_insert_users_doc
             (fun i =>
                Users.mk i name "#000000" "" None prefs (Some (now 0%nat))
                  (Some true) (Some (now 1%nat))) ;;
      ret tt
  end.

Definition updateStatus (now : Clock) (name st : string) : M unit :=
  user <- first (query_filter users (same_user name)) ;;
  match user with
  | Some u =>
      db_patch_users_with (Users._id u)
        (fun d =>
           Users.mk (Users._id d) (Users.username d) (Users.color d) st
             (Users.avatar d) (Users.preferences d) (Some (now 0%nat))
             (Users.isOnline d) (Some (now 1%nat))) ;;
      _ <- db_insert_userActivity name "status_change" (now 2%nat)
             (Some st) ;;
      ret tt
  | None =>
      _ <- db_insert_users_doc
             (fun i =>
                Users.mk i name "#000000" st None no_preferences
                  (Some (now 0%nat)) (Some true) (Some (now 1%nat))) ;;
      _ <- db_insert_userActivity name "status_change" (now 2%nat)
             (Some st) ;;
      ret tt
  end.

Definition updateAppearance (now : Clock) (name col : string) : M unit :=
  user <- first (query_filter users (same_user name)) ;;
  match user with
  | Some u =>
      db_patch_users_with (Users._id u)
        (fun d =>
           Users.mk (Users._id d) (Users.username d) col (Users.status d)
             (Users.avatar d) (Users.preferences d) (Users.lastSeen d)
             (Users.isOnline d) (Some (now 0%nat))) ;;
      _ <- db_insert_userActivity name "color_change" (now 1%nat)
             (Some col) ;;
      ret tt
  | None =>
      _ <- db_insert_users_doc
             (fun i =>
                Users.mk i name col "" None no_preferences
                  (Some (now 0%nat)) (Some true) (Some (now 1%nat))) ;;
      _ <- db_insert_userActivity name "color_change" (now 2%nat)
             (Some col) ;;
      ret tt
  end.

(** [getUser]: the first [users] document with the username, or [null]. *)
Definition getUser (name : string) : M (option Users.doc) :=
  first (query_filter users (same_user name)).

Record UsernameCheck := mkUsernameCheck { isTaken : bool }.

Definition checkUsername (name : string) : M UsernameCheck :=
  user <- first (query_filter users (same_user name)) ;;
  ret (mkUsernameCheck (match user with Some _ => true | None => false end)).

Definition updatePresence (now : Clock) (name : string) (online : bool)
  : M unit :=
  user <- first (query_filter users (same_user name)) ;;
  match user with
  | Some u =>
      db_patch_users_with (Users._id u)
        (fun d =>
           Users.mk (Users._id d) (Users.username d) (Users.color d)
             (Users.status d) (Users.avatar d) (Users.preferences d)
             (Some (now 0%nat)) (Some online) (Some (now 1%nat))) ;;
      _ <- db_insert_userActivity name (if online then "login" else "logout")
             (now 2%nat) None ;;
      ret tt
  | None => ret tt
  end.

Definition updateAvatar (now : Clock) (name av : string) : M unit :=
  user <- first (query_filter users (same_user name)) ;;
  match user with
  | Some u =>
      db_patch_users_with (Users._id u)
        (fun d =>
           Users.mk (Users._id d) (Users.username d) (Users.color d)
             (Users.status d) (Some av) (Users.preferences d)
             (Users.lastSeen d) (Users.isOnline d) (Some (now 0%nat))) ;;
      _ <- db_insert_userActivity name "avatar_change" (now 1%nat) None ;;
      ret tt
  | None => ret tt
  end.




Definition is_online (d : Users.doc) : bool :=
  match Users.isOnline d with
  | Some true => true
  | _ => false
  end.

Definition getOnlineUsers : M (list Users.doc) :=
  collect (query_filter users is_online).

(** The mutations of convex/users.ts, as requests. *)
Inductive UsersMutation :=
| SaveAccount (args : Args.t)
| UpdatePreferences (name : string) (prefs : Preferences)
| UpdateStatus (name st : string)
| UpdateAppearance (name col : string)
| UpdatePresence (name : string) (online : bool)
| UpdateAvatar (name av : string).

Definition handler (now : Clock) (m : UsersMutation) : M unit :=
  match m with
  | SaveAccount args => saveAccount now args
  | UpdatePreferences name prefs => updatePreferences now name prefs
  | UpdateStatus name st => updateStatus now name st
  | UpdateAppearance name col => updateAppearance now name col
  | UpdatePresence name online => updatePresence now name online
  | UpdateAvatar name av => updateAvatar now name av
  end.

(** The store after a mutation; a run that throws commits nothing. *)
Definition apply_mutation (db : Db) (c : Clock * UsersMutation) : Db :=
  match run (handler (fst c) (snd c)) db with
  | inr (_, db') => db'
  | inl _ => db
  end.

Definition apply_mutations (l : list (Clock * UsersMutation)) (db : Db) : Db :=
  fold_left apply_mutation l db.

(** ** convex/messages.ts *)

(** What a handler of this file can throw: an [Error] of its own with a
    message, or the store's refusal to patch a document that does not
    exist. *)
Inductive Thrown :=
| ErrorMessage (message : string)
| NonexistentDocument (i : Id).

Definition MX := stateT Db (sum Thrown).

Definition runX {A} (c : MX A) (db : Db) : Thrown + (A * Db) := runStateT c db.

Definition set_messages (t : list Messages.doc) (db : Db) : Db :=
  mkDb (savedAccounts db) (users db) t (userActivity db) (typing db)
       (next_id db).

Definition set_typing (t : list Typing.doc) (db : Db) : Db :=
  mkDb (savedAccounts db) (users db) (messages db) (userActivity db) t
       (next_id db).

(** [ctx.db.get(messageId)]: the document with that id, or [null]. *)
Definition db_get_message (i : Id) : MX (option Messages.doc) :=
  gets (fun db => find (fun m => N.eqb (Messages._id m) i) (messages db)).

(** [ctx.db.patch(messageId, fields)]: refused when no document has the id. *)
Definition db_patch_message (i : Id) (f : Messages.doc -> Messages.doc)
  : MX unit :=
  db <- get ;;
  match find (fun m => N.eqb (Messages._id m) i) (messages db) with
  | Some _ => put (set_messages (tbl_patch Messages._id i f (messages db)) db)
  | None => raise (NonexistentDocument i)
  end.

Definition send (now : Clock) (text name col : string) : MX Id :=
  db <- get ;;
  let i := next_id db in
  put (bump_id
         (set_messages
            (messages db ++
               [Messages.mk i text name (now 0%nat) col None None None
                  (Some true) (Some [])]) db)) ;;
  ret i.

(** The query [list] of this file, in a name space of its own. *)
Module MessagesTs.
Definition list : MX (list Messages.doc) :=
  ms <- gets (fun db => firstn 100 (rev (messages db))) ;;
  ret (rev ms).
End MessagesTs.

(** The fields [{ text: newText, edited: true }] written over a message. *)
Definition edited_message (newText : string) (d : Messages.doc)
  : Messages.doc :=
  Messages.mk (Messages._id d) newText (Messages.username d)
    (Messages.timestamp d) (Messages.color d) (Some true)
    (Messages.deleted d) (Messages.reactions d) (Messages.delivered d)
    (Messages.readBy d).

(** The field [{ deleted: true }] written over a message. *)
Definition deleted_message (d : Messages.doc) : Messages.doc :=
  Messages.mk (Messages._id d) (Messages.text d) (Messages.username d)
    (Messages.timestamp d) (Messages.color d) (Messages.edited d)
    (Some true) (Messages.reactions d) (Messages.delivered d)
    (Messages.readBy d).

Definition editMessage (messageId : Id) (newText name : string) : MX bool :=
  message <- db_get_message messageId ;;
  match message with
  | None => raise (ErrorMessage "Message not found")
  | Some m =>
      if negb (String.eqb (Messages.username m) name)
      then raise (ErrorMessage "You can only edit your own messages")
      else
        db_patch_message messageId (edited_message newText) ;;
        ret true
  end.

Definition deleteMessage (messageId : Id) (name : string) : MX bool :=
  message <- db_get_message messageId ;;
  match message with
  | None => raise (ErrorMessage "Message not found")
  | Some m =>
      if negb (String.eqb (Messages.username m) name)
      then raise (ErrorMessage "You can only delete your own messages")
      else
        db_patch_message messageId deleted_message ;;
        ret true
  end.




(** [searchMessages], over the test
    [m.text.toLowerCase().includes(query.toLowerCase())] taken as given. *)
Definition searchMessages (text_matches : string -> string -> bool)
    (query : string) : MX (list Messages.doc) :=
  all <- gets messages ;;
  ret (filter
         (fun m =>
            negb (match Messages.deleted m with
                  | Some true => true
                  | _ => false
                  end)
            && text_matches (Messages.text m) query) all).

Definition markDelivered (messageId : Id) : MX bool :=
  db_patch_message messageId
    (fun d =>
       Messages.mk (Messages._id d) (Messages.text d) (Messages.username d)
         (Messages.timestamp d) (Messages.color d) (Messages.edited d)
         (Messages.deleted d) (Messages.reactions d) (Some true)
         (Messages.readBy d)) ;;
  ret true.




Definition same_typist (name : string) (d : Typing.doc) : bool :=
  String.eqb (Typing.username d) name.

Definition setTyping (now : Clock) (name : string) (isTyping : bool)
  : MX bool :=
  (if isTyping then
     existing <- gets (fun db => hd_error (filter (same_typist name)
                                             (typing db))) ;;
     match existing with
     | Some e =>
         db <- get ;;
         put (set_typing
                (tbl_patch Typing._id (Typing._id e)
                   (fun d => Typing.mk (Typing._id d) (Typing.username d)
                               (now 0%nat))
                   (typing db)) db)
     | None =>
         db <- get ;;
         put (bump_id
                (set_typing
                   (typing db ++ [Typing.mk (next_id db) name (now 0%nat)])
                   db))
     end
   else
     existing <- gets (fun db => hd_error (filter (same_typist name)
                                             (typing db))) ;;
     match existing with
     | Some e =>
         db <- get ;;
         put (set_typing (tbl_delete Typing._id (Typing._id e) (typing db))
                db)
     | None => ret tt
     end) ;;
  ret true.

(** [getTypingUsers]: those who typed in the last 5 seconds. *)
Definition getTypingUsers (now : Clock) : MX (list Typing.doc) :=
  all <- gets typing ;;
  ret (filter (fun t => Z.ltb (now 0%nat - Typing.timestamp t) 5000) all).

(** ** Views of the store used in the statements *)

(** The (deviceId, username) pair a saved account stands for. *)
Definition account_key (d : SavedAccounts.doc) : string * string :=
  (SavedAccounts.deviceId d, SavedAccounts.username d).

Definition account_keys (db : Db) : list (string * string) :=
  map account_key (savedAccounts db).

(** Id and username of each [users] document, in creation order. *)
Definition user_keys (db : Db) : list (N * string) :=
  map (fun d => (Users._id d, Users.username d)) (users db).

(** The user names with a [typing] document. *)
Definition typists (db : Db) : list string :=
  map Typing.username (typing db).

(** A store with two messages and one typing record. *)
Definition chatroom : Db :=
  mkDb [] []
       [Messages.mk 0%N "hi" "alice" 10 "#000000" None None None (Some true)
          (Some []);
        Messages.mk 1%N "yo" "bob" 11 "#000000" None None
          (Some [("alice", "+1")]) (Some true) (Some ["alice"])]
       [] [Typing.mk 2%N "alice" 100] 3%N.

(** The store after a [setTyping] call, and after a sequence of them. *)
Definition typing_step (db : Db) (c : Clock * string * bool) : Db :=
  match runX (setTyping (fst (fst c)) (snd (fst c)) (snd c)) db with
  | inr (_, db') => db'
  | inl _ => db
  end.

Definition typing_steps (calls : list (Clock * string * bool)) (db : Db)
  : Db :=
  fold_left typing_step calls db.

(** * Facts *)

Lemma reduce_nonempty {A} (f : A -> A -> A) (l : list A) :
  (0 < length l)%nat -> exists x, reduce f l = Some x.
Proof.
  destruct l as [|a l]; simpl; intros H.
  - inversion H.
  - eexists; reflexivity.
Qed.

Lemma saveAccount_existing now args db existing :
  lookup_account args db = Some existing ->
  run (saveAccount now args) db = inr (tt, updated now args existing db).
Proof.
  unfold lookup_account, run, saveAccount. intros H.
  cbn. rewrite H. reflexivity.
Qed.

Lemma saveAccount_new now args db :
  lookup_account args db = None ->
  run (saveAccount now args) db = inr (tt, created now args db).
Proof.
  unfold lookup_account, run, saveAccount. intros H.
  cbn -[Nat.leb reduce filter]. rewrite H. cbn -[Nat.leb reduce filter].
  unfold created, after_evict, evicted, lookup_user, count_of, device_accounts.
  destruct (Nat.leb 3 _) eqn:Hn.
  - apply Nat.leb_le in Hn.
    destruct (reduce_nonempty older
                (filter (same_device (Args.deviceId args)) (savedAccounts db)))
      as [o Ho]; [lia|].
    rewrite Ho. cbn -[filter].
    destruct (hd_error (filter (same_user (Args.username args)) (users db)));
      reflexivity.
  - cbn -[filter].
    destruct (hd_error (filter (same_user (Args.username args)) (users db)));
      reflexivity.
Qed.

Lemma distinct_NoDup l : distinct l = true <-> NoDup l.
Proof.
  induction l as [|i r IH]; simpl.
  - split; [constructor | reflexivity].
  - rewrite andb_true_iff, negb_true_iff, IH. split.
    + intros [Hn Hr]. constructor; [|exact Hr].
      intros Hin. assert (existsb (N.eqb i) r = true) as E.
      { apply existsb_exists. exists i. split; [exact Hin | apply N.eqb_refl]. }
      congruence.
    + intros Hnd. inversion Hnd as [|? ? Hni Hr]; subst. split; [|exact Hr].
      destruct (existsb (N.eqb i) r) eqn:E; [|reflexivity].
      apply existsb_exists in E. destruct E as [j [Hj Hij]].
      apply N.eqb_eq in Hij. subst j. contradiction.
Qed.

Section TableFacts.
Context {D : Type} (id_of : D -> Id).

Lemma tbl_patch_length i f (t : list D) :
  length (tbl_patch id_of i f t) = length t.
Proof. apply length_map. Qed.

Lemma tbl_patch_ids i f (t : list D) :
  (forall d, id_of (f d) = id_of d) ->
  map id_of (tbl_patch id_of i f t) = map id_of t.
Proof.
  intros Hf. unfold tbl_patch. rewrite map_map. apply map_ext.
  intros d. destruct (N.eqb (id_of d) i); [apply Hf | reflexivity].
Qed.

Lemma tbl_patch_absent i f (t : list D) :
  ~ In i (map id_of t) -> tbl_patch id_of i f t = t.
Proof.
  induction t as [|d t IH]; simpl; intros Hn; [reflexivity|].
  destruct (N.eqb_spec (id_of d) i) as [E|E].
  - exfalso. apply Hn. left. exact E.
  - f_equal. apply IH. intros Hin. apply Hn. right. exact Hin.
Qed.

Lemma tbl_delete_absent i (t : list D) :
  ~ In i (map id_of t) -> tbl_delete id_of i t = t.
Proof.
  induction t as [|d t IH]; simpl; intros Hn; [reflexivity|].
  destruct (N.eqb_spec (id_of d) i) as [E|E]; simpl.
  - exfalso. apply Hn. left. exact E.
  - f_equal. apply IH. intros Hin. apply Hn. right. exact Hin.
Qed.

Lemma NoDup_ids_split (pre post : list D) e :
  NoDup (map id_of (pre ++ e :: post)) ->
  ~ In (id_of e) (map id_of pre) /\ ~ In (id_of e) (map id_of post).
Proof.
  rewrite map_app. simpl. intros Hnd.
  apply NoDup_remove_2 in Hnd. rewrite in_app_iff in Hnd. tauto.
Qed.

(** With pairwise different ids, a patch rewrites one document in place. *)
Lemma tbl_patch_split f (pre post : list D) e :
  NoDup (map id_of (pre ++ e :: post)) ->
  tbl_patch id_of (id_of e) f (pre ++ e :: post) = (pre ++ f e :: post)%list.
Proof.
  intros Hnd. destruct (NoDup_ids_split _ _ _ Hnd) as [Hpre Hpost].
  unfold tbl_patch. rewrite map_app. simpl. rewrite N.eqb_refl.
  fold (tbl_patch id_of (id_of e) f pre).
  fold (tbl_patch id_of (id_of e) f post).
  rewrite !tbl_patch_absent by assumption. reflexivity.
Qed.

(** With pairwise different ids, a delete removes one document. *)
Lemma tbl_delete_split (pre post : list D) e :
  NoDup (map id_of (pre ++ e :: post)) ->
  tbl_delete id_of (id_of e) (pre ++ e :: post) = (pre ++ post)%list.
Proof.
  intros Hnd. destruct (NoDup_ids_split _ _ _ Hnd) as [Hpre Hpost].
  unfold tbl_delete. rewrite filter_app. simpl. rewrite N.eqb_refl. simpl.
  fold (tbl_delete id_of (id_of e) pre).
  fold (tbl_delete id_of (id_of e) post).
  rewrite !tbl_delete_absent by assumption. reflexivity.
Qed.

(** A patch that does not change what [p] sees keeps the selection size. *)
Lemma filter_tbl_patch_length (p : D -> bool) i f (t : list D) :
  (forall d, p (f d) = p d) ->
  length (filter p (tbl_patch id_of i f t)) = length (filter p t).
Proof.
  intros Hp. induction t as [|d t IH]; simpl; [reflexivity|].
  destruct (N.eqb (id_of d) i); [rewrite Hp|];
    destruct (p d); simpl; rewrite IH; reflexivity.
Qed.

(** Patching a document outside a selection leaves the selection alone. *)
Lemma filter_tbl_patch_other (p : D -> bool) i f (t : list D) :
  (forall d, In d t -> id_of d = i -> p d = false /\ p (f d) = false) ->
  filter p (tbl_patch id_of i f t) = filter p t.
Proof.
  induction t as [|d t IH]; simpl; intros H; [reflexivity|].
  rewrite IH by (intros d' Hin; apply H; right; exact Hin).
  destruct (N.eqb_spec (id_of d) i) as [E|E]; [|reflexivity].
  destruct (H d (or_introl eq_refl) E) as [H1 H2]. rewrite H1, H2.
  reflexivity.
Qed.

Lemma filter_tbl_delete_other (p : D -> bool) i (t : list D) :
  (forall d, In d t -> id_of d = i -> p d = false) ->
  filter p (tbl_delete id_of i t) = filter p t.
Proof.
  induction t as [|d t IH]; simpl; intros H; [reflexivity|].
  destruct (N.eqb_spec (id_of d) i) as [E|E]; simpl.
  - rewrite (H d (or_introl eq_refl) E).
    apply IH. intros d' Hin. apply H. right. exact Hin.
  - rewrite IH by (intros d' Hin; apply H; right; exact Hin). reflexivity.
Qed.

Lemma tbl_delete_incl i (t : list D) d :
  In d (tbl_delete id_of i t) -> In d t.
Proof. unfold tbl_delete. intros H. apply filter_In in H. tauto. Qed.

Lemma filter_tbl_delete_le (p : D -> bool) i (t : list D) :
  (length (filter p (tbl_delete id_of i t)) <= length (filter p t))%nat.
Proof.
  induction t as [|d t IH]; simpl; [lia|].
  destruct (N.eqb (id_of d) i); simpl; destruct (p d); simpl; lia.
Qed.

(** Deleting a selected document makes the selection smaller. *)
Lemma filter_tbl_delete_lt (p : D -> bool) (t : list D) e :
  In e t -> p e = true ->
  (length (filter p (tbl_delete id_of (id_of e) t)) < length (filter p t))%nat.
Proof.
  induction t as [|d t IH]; simpl; intros Hin Hp; [contradiction|].
  destruct Hin as [->|Hin].
  - rewrite N.eqb_refl, Hp. simpl.
    pose proof (filter_tbl_delete_le p (id_of e) t). lia.
  - specialize (IH Hin Hp).
    destruct (N.eqb (id_of d) (id_of e)); simpl; destruct (p d); simpl; lia.
Qed.
End TableFacts.

(** ** The eviction scan *)

(** The scan returns the first document of least [lastUsed]. *)
Lemma fold_left_older l x :
  exists l1 l2,
    x :: l = (l1 ++ fold_left older l x :: l2)%list
    /\ (forall r, In r l1 ->
          (SavedAccounts.lastUsed (fold_left older l x)
             < SavedAccounts.lastUsed r)%Z)
    /\ (forall r, In r l2 ->
          (SavedAccounts.lastUsed (fold_left older l x)
             <= SavedAccounts.lastUsed r)%Z).
Proof.
  induction l as [|y l IH] using rev_ind.
  - exists [], []. simpl. repeat split; intros r [].
  - destruct IH as [l1 [l2 [Hs [H1 H2]]]].
    rewrite fold_left_app. simpl. unfold older at 1 3 5.
    destruct (Z.ltb_spec (SavedAccounts.lastUsed y)
                (SavedAccounts.lastUsed (fold_left older l x))) as [Hlt|Hge].
    + exists (x :: l), []. repeat split.
      * intros r Hr. rewrite Hs in Hr. apply in_app_or in Hr.
        destruct Hr as [Hr|[<-|Hr]].
        -- specialize (H1 r Hr). lia.
        -- exact Hlt.
        -- specialize (H2 r Hr). lia.
      * intros r [].
    + exists l1, (l2 ++ [y])%list. repeat split.
      * rewrite app_comm_cons, Hs, <- app_assoc. reflexivity.
      * exact H1.
      * intros r Hr. apply in_app_or in Hr. destruct Hr as [Hr|[<-|[]]].
        -- apply H2. exact Hr.
        -- exact Hge.
Qed.

(** ** Lookups *)

Lemma hd_error_filter_Some {D} (p : D -> bool) (l : list D) e :
  hd_error (filter p l) = Some e ->
  exists pre post,
    l = (pre ++ e :: post)%list /\ p e = true
    /\ forall r, In r pre -> p r = false.
Proof.
  induction l as [|d l IH]; simpl; [discriminate|].
  destruct (p d) eqn:Hd; simpl.
  - intros [= ->]. exists [], l. repeat split; [exact Hd | intros r []].
  - intros H. destruct (IH H) as [pre [post [-> [He Hpre]]]].
    exists (d :: pre), post. repeat split; [exact He|].
    intros r [<-|Hr]; [exact Hd | apply Hpre; exact Hr].
Qed.

Lemma hd_error_filter_None {D} (p : D -> bool) (l : list D) :
  hd_error (filter p l) = None -> forall r, In r l -> p r = false.
Proof.
  intros H r Hr. destruct (p r) eqn:Hp; [|reflexivity].
  assert (In r (filter p l)) as Hin by (apply filter_In; tauto).
  destruct (filter p l); [contradiction | discriminate].
Qed.

Lemma same_device_true device d :
  same_device device d = true <-> SavedAccounts.deviceId d = device.
Proof. apply String.eqb_eq. Qed.

Lemma same_account_true device name d :
  same_account device name d = true <->
  SavedAccounts.deviceId d = device /\ SavedAccounts.username d = name.
Proof.
  unfold same_account. rewrite andb_true_iff, !String.eqb_eq. tauto.
Qed.

Lemma same_device_patch device f d :
  same_device device (patch_savedAccount f d) = same_device device d.
Proof. reflexivity. Qed.

(** ** Consequences of well-formedness *)

Lemma wf_accounts_NoDup db :
  wf db = true -> NoDup (map SavedAccounts._id (savedAccounts db)).
Proof.
  unfold wf, all_ids. rewrite andb_true_iff. intros [H _].
  apply distinct_NoDup in H. apply NoDup_app_remove_r in H. exact H.
Qed.

Lemma wf_users_NoDup db :
  wf db = true -> NoDup (map Users._id (users db)).
Proof.
  unfold wf, all_ids. rewrite andb_true_iff. intros [H _].
  apply distinct_NoDup in H.
  apply NoDup_app_remove_l, NoDup_app_remove_r in H. exact H.
Qed.

Lemma NoDup_ids_inj {D} (id_of : D -> Id) (t : list D) a b :
  NoDup (map id_of t) -> In a t -> In b t -> id_of a = id_of b -> a = b.
Proof.
  induction t as [|d t IH]; simpl; intros Hnd Ha Hb E; [contradiction|].
  inversion Hnd as [|? ? Hni Hnd']; subst.
  destruct Ha as [->|Ha], Hb as [->|Hb].
  - reflexivity.
  - exfalso. apply Hni. rewrite E. apply in_map. exact Hb.
  - exfalso. apply Hni. rewrite <- E. apply in_map. exact Ha.
  - apply IH; assumption.
Qed.

(** ** The eviction choice *)

Lemma evicted_none device db :
  (count_of device db < 3)%nat -> evicted device db = None.
Proof.
  unfold evicted. intros H.
  destruct (Nat.leb_spec 3 (count_of device db)); [lia | reflexivity].
Qed.

Lemma evicted_some device db :
  (3 <= count_of device db)%nat ->
  exists o l1 l2,
    evicted device db = Some o
    /\ device_accounts device db = (l1 ++ o :: l2)%list
    /\ (forall r, In r l1 ->
          (SavedAccounts.lastUsed o < SavedAccounts.lastUsed r)%Z)
    /\ (forall r, In r l2 ->
          (SavedAccounts.lastUsed o <= SavedAccounts.lastUsed r)%Z).
Proof.
  unfold evicted, count_of. intros H.
  destruct (Nat.leb_spec 3 (length (device_accounts device db))); [|lia].
  destruct (device_accounts device db) as [|x l]; [simpl in H; lia|].
  destruct (fold_left_older l x) as [l1 [l2 [Hs [H1 H2]]]].
  exists (fold_left older l x), l1, l2. simpl. auto.
Qed.

Lemma evicted_in device db o :
  evicted device db = Some o ->
  In o (savedAccounts db) /\ same_device device o = true.
Proof.
  intros H.
  destruct (Nat.lt_ge_cases (count_of device db) 3) as [Hlt|Hge].
  - rewrite (evicted_none _ _ Hlt) in H. discriminate.
  - destruct (evicted_some _ _ Hge) as [o' [l1 [l2 [He [Hs _]]]]].
    rewrite He in H. injection H as ->.
    assert (In o (device_accounts device db)) as Hin.
    { rewrite Hs. apply in_elt. }
    apply filter_In in Hin. exact Hin.
Qed.

(** ** Counting per device *)

Lemma count_updated now args existing db device :
  count_of device (updated now args existing db) = count_of device db.
Proof.
  unfold count_of, device_accounts, updated. simpl.
  apply filter_tbl_patch_length. intros d. apply same_device_patch.
Qed.

Lemma savedAccounts_created now args db :
  savedAccounts (created now args db)
  = (after_evict (Args.deviceId args) db
       ++ [new_account (next_id db) now args])%list.
Proof.
  unfold created. destruct (lookup_user _ _); reflexivity.
Qed.

Lemma count_created now args db device :
  count_of device (created now args db)
  = (length (filter (same_device device)
               (after_evict (Args.deviceId args) db))
     + (if String.eqb (Args.deviceId args) device then 1 else 0))%nat.
Proof.
  unfold count_of, device_accounts. rewrite savedAccounts_created.
  rewrite filter_app, length_app. simpl. unfold same_device at 2. simpl.
  destruct (String.eqb (Args.deviceId args) device); reflexivity.
Qed.

Lemma after_evict_le device d db :
  (length (filter (same_device d) (after_evict device db)) <= count_of d db)%nat.
Proof.
  unfold after_evict, count_of, device_accounts.
  destruct (evicted device db); [apply filter_tbl_delete_le | lia].
Qed.

(** One call keeps a device within the cap. *)
Lemma step_cap db c device :
  (count_of device db <= 3)%nat -> (count_of device (step db c) <= 3)%nat.
Proof.
  intros Hc. unfold step.
  destruct (lookup_account (call_args c) db) as [e|] eqn:Hl.
  - rewrite (saveAccount_existing _ _ _ _ Hl), count_updated. exact Hc.
  - rewrite (saveAccount_new _ _ _ Hl), count_created.
    destruct (String.eqb_spec (Args.deviceId (call_args c)) device) as [E|E].
    + subst device.
      destruct (Nat.lt_ge_cases (count_of (Args.deviceId (call_args c)) db) 3)
        as [Hlt|Hge].
      * pose proof (after_evict_le (Args.deviceId (call_args c))
                      (Args.deviceId (call_args c)) db). lia.
      * destruct (evicted_some _ _ Hge) as [o [l1 [l2 [He _]]]].
        destruct (evicted_in _ _ _ He) as [Hin Hdev].
        unfold after_evict. rewrite He.
        pose proof (filter_tbl_delete_lt SavedAccounts._id
                      (same_device (Args.deviceId (call_args c)))
                      (savedAccounts db) o Hin Hdev) as Hlt.
        unfold count_of, device_accounts in Hc. lia.
    + pose proof (after_evict_le (Args.deviceId (call_args c)) device db). lia.
Qed.

(** C1: for every deviceId, starting from a store without saved accounts,
    after any sequence of [saveAccount] calls the number of [savedAccounts]
    documents with that deviceId is at most 3. *)
Theorem saveAccount_cap (calls : list Call) (db0 : Db) (device : string) :
  savedAccounts db0 = [] ->
  (count_of device (run_calls calls db0) <= 3)%nat.
Proof.
  intros H0.
  assert (count_of device db0 <= 3)%nat as Hc.
  { unfold count_of, device_accounts. rewrite H0. simpl. lia. }
  clear H0. revert db0 Hc. unfold run_calls.
  induction calls as [|c calls IH]; simpl; intros db0 Hc; [exact Hc|].
  apply IH, step_cap, Hc.
Qed.

Lemma saveAccount_cap_witness :
  savedAccounts empty_db = []
  /\ (count_of "D1"
        (run_calls [save "D1" "alice" "#000000" 1; save "D1" "bob" "#000000" 2;
                    save "D1" "carol" "#000000" 3; save "D1" "dave" "#000000" 4;
                    save "D2" "erin" "#000000" 5] empty_db) <= 3)%nat.
Proof.
  split; [reflexivity|].
  apply (saveAccount_cap
           [save "D1" "alice" "#000000" 1; save "D1" "bob" "#000000" 2;
            save "D1" "carol" "#000000" 3; save "D1" "dave" "#000000" 4;
            save "D2" "erin" "#000000" 5] empty_db "D1").
  reflexivity.
Defined.

(** ** [getSavedAccounts] *)

Lemma getSavedAccounts_run device db :
  run (getSavedAccounts device) db
  = inr (firstn 3 (rev (device_accounts device db)), db).
Proof. reflexivity. Qed.

(** C2, as the code has it: for every deviceId and every store,
    [getSavedAccounts] reads without writing and returns the (at most 3)
    most recently created documents of that device, newest first; the
    order does not depend on [lastUsed].  After D1 holds bob, carol, dave
    and bob is saved again with a new color at time 5, the result is
    [dave; carol; bob], bob carrying the new color and [lastUsed] 5. *)
Theorem getSavedAccounts_newest_first (device : string) (db : Db) :
  (exists l rest,
     run (getSavedAccounts device) db = inr (l, db)
     /\ rev (device_accounts device db) = (l ++ rest)%list
     /\ length l = Nat.min 3 (count_of device db)
     /\ (forall d, In d l ->
           In d (savedAccounts db) /\ SavedAccounts.deviceId d = device))
  /\ option_map
       (map (fun d => (SavedAccounts.username d, SavedAccounts.color d,
                       SavedAccounts.lastUsed d)))
       (result (getSavedAccounts "D1") scenario5)
     = Some [("dave", "#000000", 4%Z); ("carol", "#000000", 3%Z);
             ("bob", "#ff0000", 5%Z)].
Proof.
  split; [|reflexivity].
  exists (firstn 3 (rev (device_accounts device db))),
         (skipn 3 (rev (device_accounts device db))).
  split; [apply getSavedAccounts_run|]. split.
  - symmetry. apply firstn_skipn.
  - split; [rewrite length_firstn, length_rev; reflexivity|].
    intros d Hd.
    assert (In d (rev (device_accounts device db))) as Hin.
    { rewrite <- (firstn_skipn 3). apply in_or_app. left. exact Hd. }
    apply in_rev, filter_In in Hin.
    rewrite same_device_true in Hin. exact Hin.
Qed.

(** C2, as stated, fails on the scenario: the result is not
    [bob; dave; carol] and is not ordered by [lastUsed]. *)
Lemma getSavedAccounts_not_by_lastUsed :
  exists l,
    result (getSavedAccounts "D1") scenario5 = Some l
    /\ map SavedAccounts.username l = ["dave"; "carol"; "bob"]
    /\ map SavedAccounts.username l <> ["bob"; "dave"; "carol"]
    /\ lastUsed_desc l = false.
Proof.
  eexists. split; [reflexivity|]. repeat split. discriminate.
Qed.

(** ** [saveAccount]: the new-account path *)

(** C3: when the (deviceId, username) pair is not in the store and the
    device already has 3 or more documents, exactly one document is
    deleted before the new one is appended: the first, in scan order, of
    those with the least [lastUsed] among the device's documents.  In
    particular a document whose [lastUsed] is strictly below that of every
    other document of the device is the one evicted. *)
Theorem saveAccount_evicts_oldest (now : Clock) (args : Args.t) (db : Db) :
  wf db = true ->
  lookup_account args db = None ->
  (3 <= count_of (Args.deviceId args) db)%nat ->
  exists db' o pre post l1 l2,
    run (saveAccount now args) db = inr (tt, db')
    /\ savedAccounts db = (pre ++ o :: post)%list
    /\ savedAccounts db'
       = (pre ++ post ++ [new_account (next_id db) now args])%list
    /\ device_accounts (Args.deviceId args) db = (l1 ++ o :: l2)%list
    /\ (forall r, In r l1 ->
          (SavedAccounts.lastUsed o < SavedAccounts.lastUsed r)%Z)
    /\ (forall r, In r l2 ->
          (SavedAccounts.lastUsed o <= SavedAccounts.lastUsed r)%Z)
    /\ (forall r, In r (device_accounts (Args.deviceId args) db) ->
          (forall r', In r' (device_accounts (Args.deviceId args) db) ->
             SavedAccounts._id r' <> SavedAccounts._id r ->
             (SavedAccounts.lastUsed r < SavedAccounts.lastUsed r')%Z) ->
          o = r).
Proof.
  intros Hwf Hl Hc.
  pose proof (wf_accounts_NoDup _ Hwf) as Hnd.
  destruct (evicted_some _ _ Hc) as [o [l1 [l2 [He [Hs [H1 H2]]]]]].
  destruct (evicted_in _ _ _ He) as [Hin Hdev].
  destruct (in_split _ _ Hin) as [pre [post Hsplit]].
  exists (created now args db), o, pre, post, l1, l2.
  split; [apply saveAccount_new; exact Hl|].
  split; [exact Hsplit|]. split.
  { rewrite savedAccounts_created. unfold after_evict. rewrite He, Hsplit.
    rewrite tbl_delete_split by (rewrite <- Hsplit; exact Hnd).
    rewrite <- app_assoc. reflexivity. }
  split; [exact Hs|]. split; [exact H1|]. split; [exact H2|].
  intros r Hr Hmin.
  assert (In o (device_accounts (Args.deviceId args) db)) as Ho.
  { rewrite Hs. apply in_elt. }
  destruct (N.eq_dec (SavedAccounts._id o) (SavedAccounts._id r)) as [E|E].
  - apply (NoDup_ids_inj SavedAccounts._id (savedAccounts db)); auto.
    apply filter_In in Hr. tauto.
  - exfalso. specialize (Hmin o Ho E).
    rewrite Hs in Hr. apply in_app_or in Hr. destruct Hr as [Hr|[Hr|Hr]].
    + specialize (H1 r Hr). lia.
    + subst r. lia.
    + specialize (H2 r Hr). lia.
Qed.

Lemma saveAccount_evicts_oldest_witness :
  exists db' o pre post l1 l2,
    run (saveAccount (fun _ => 4%Z)
           (Args.mk "D1" "dave" "#000000" "" None prefs0)) scenario3
    = inr (tt, db')
    /\ savedAccounts scenario3 = (pre ++ o :: post)%list
    /\ savedAccounts db'
       = (pre ++ post
            ++ [new_account (next_id scenario3) (fun _ => 4%Z)
                  (Args.mk "D1" "dave" "#000000" "" None prefs0)])%list
    /\ device_accounts "D1" scenario3 = (l1 ++ o :: l2)%list
    /\ (forall r, In r l1 ->
          (SavedAccounts.lastUsed o < SavedAccounts.lastUsed r)%Z)
    /\ (forall r, In r l2 ->
          (SavedAccounts.lastUsed o <= SavedAccounts.lastUsed r)%Z)
    /\ (forall r, In r (device_accounts "D1" scenario3) ->
          (forall r', In r' (device_accounts "D1" scenario3) ->
             SavedAccounts._id r' <> SavedAccounts._id r ->
             (SavedAccounts.lastUsed r < SavedAccounts.lastUsed r')%Z) ->
          o = r).
Proof.
  apply (saveAccount_evicts_oldest (fun _ => 4%Z)
           (Args.mk "D1" "dave" "#000000" "" None prefs0) scenario3).
  - vm_compute. reflexivity.
  - vm_compute. reflexivity.
  - vm_compute. lia.
Defined.

(** The scenario of C3: alice, bob, carol, then dave evicts alice. *)
Example scenario_dave_evicts_alice :
  count_of "D1" scenario3 = 3%nat
  /\ map SavedAccounts.username (savedAccounts scenario4)
     = ["bob"; "carol"; "dave"]
  /\ option_map (map SavedAccounts.username)
       (result (getSavedAccounts "D1") scenario4)
     = Some ["dave"; "carol"; "bob"].
Proof. repeat split. Qed.

(** ** [saveAccount]: empty strings *)

Lemma tbl_patch_hit {D} (id_of : D -> Id) f (t : list D) e :
  In e t -> In (f e) (tbl_patch id_of (id_of e) f t).
Proof.
  intros Hin. unfold tbl_patch.
  apply in_map_iff. exists e. rewrite N.eqb_refl. auto.
Qed.

(** C4, as the code has it: [saveAccount] has no emptiness check.  A call
    whose deviceId or username is the empty string is not rejected: it
    completes like any other call and leaves in [savedAccounts] a document
    with that deviceId and username carrying the call's color, status,
    avatar and preferences, and [lastUsed] set to the current time. *)
Theorem saveAccount_accepts_empty (now : Clock) (args : Args.t) (db : Db) :
  Args.deviceId args = "" \/ Args.username args = "" ->
  exists db' d,
    run (saveAccount now args) db = inr (tt, db')
    /\ In d (savedAccounts db')
    /\ SavedAccounts.deviceId d = Args.deviceId args
    /\ SavedAccounts.username d = Args.username args
    /\ SavedAccounts.color d = Args.color args
    /\ SavedAccounts.status d = Args.status args
    /\ SavedAccounts.avatar d = Args.avatar args
    /\ SavedAccounts.preferences d = Args.preferences args
    /\ SavedAccounts.lastUsed d = now 0%nat.
Proof.
  intros _.
  destruct (lookup_account args db) as [e|] eqn:Hl.
  - destruct (hd_error_filter_Some _ _ _ Hl) as [pre [post [Hs [He _]]]].
    apply same_account_true in He. destruct He as [Hd Hu].
    exists (updated now args e db),
           (patch_savedAccount (account_fields now args) e).
    split; [apply saveAccount_existing; exact Hl|]. split.
    { unfold updated. simpl. apply tbl_patch_hit. rewrite Hs. apply in_elt. }
    simpl. auto 10.
  - exists (created now args db), (new_account (next_id db) now args).
    split; [apply saveAccount_new; exact Hl|]. split.
    { rewrite savedAccounts_created. apply in_or_app. right. left.
      reflexivity. }
    simpl. auto 10.
Qed.

Lemma saveAccount_accepts_empty_witness :
  exists db' d,
    run (saveAccount (fun _ => 7%Z) (Args.mk "" "" "#000000" "" None prefs0))
        scenario3
    = inr (tt, db')
    /\ In d (savedAccounts db')
    /\ SavedAccounts.deviceId d = ""
    /\ SavedAccounts.username d = ""
    /\ SavedAccounts.color d = "#000000"
    /\ SavedAccounts.status d = ""
    /\ SavedAccounts.avatar d = None
    /\ SavedAccounts.preferences d = prefs0
    /\ SavedAccounts.lastUsed d = 7%Z.
Proof.
  apply (saveAccount_accepts_empty (fun _ => 7%Z)
           (Args.mk "" "" "#000000" "" None prefs0) scenario3).
  left. reflexivity.
Defined.

(** C4, as stated, fails: with an empty deviceId and an empty username
    the call succeeds and the store is changed. *)
Lemma saveAccount_empty_not_rejected :
  exists db',
    run (saveAccount (fun _ => 7%Z) (Args.mk "" "" "#000000" "" None prefs0))
        empty_db
    = inr (tt, db')
    /\ length (savedAccounts db') = 1%nat
    /\ db' <> empty_db.
Proof.
  eexists. split; [reflexivity|]. split; [reflexivity|]. discriminate.
Qed.

(** ** [saveAccount]: the existing-account path *)

Lemma deleted_none (t t' : list SavedAccounts.doc) :
  (forall d, In d t ->
     exists d', In d' t' /\ SavedAccounts._id d' = SavedAccounts._id d) ->
  filter (fun d => negb (existsb (fun d' => N.eqb (SavedAccounts._id d')
                                              (SavedAccounts._id d)) t')) t
  = [].
Proof.
  induction t as [|d t IH]; simpl; intros H; [reflexivity|].
  destruct (H d (or_introl eq_refl)) as [d' [Hin E]].
  assert (existsb (fun d' => N.eqb (SavedAccounts._id d')
                               (SavedAccounts._id d)) t' = true) as Hex.
  { apply existsb_exists. exists d'. split; [exact Hin|].
    apply N.eqb_eq. exact E. }
  rewrite Hex. simpl. apply IH. intros d0 Hd0. apply H. right. exact Hd0.
Qed.

Lemma deleted_updated now args existing db :
  deleted_accounts db (updated now args existing db) = [].
Proof.
  unfold deleted_accounts, updated. simpl. apply deleted_none.
  intros d Hd.
  exists (if N.eqb (SavedAccounts._id d) (SavedAccounts._id existing)
          then patch_savedAccount (account_fields now args) d else d).
  split.
  - unfold tbl_patch. apply in_map_iff. exists d. auto.
  - destruct (N.eqb _ _); reflexivity.
Qed.

(** C5: for every store, a [saveAccount] call for a (deviceId, username)
    pair that already exists leaves the number of [savedAccounts] documents
    of every deviceId unchanged; no document is inserted or deleted; in a
    store with pairwise different ids the existing document alone is
    rewritten in place, with the call's color, status, avatar and
    preferences and with [lastUsed] set to the current time. *)
Theorem saveAccount_existing_in_place
    (now : Clock) (args : Args.t) (db : Db) (existing : SavedAccounts.doc) :
  lookup_account args db = Some existing ->
  exists db',
    run (saveAccount now args) db = inr (tt, db')
    /\ (forall device, count_of device db' = count_of device db)
    /\ map SavedAccounts._id (savedAccounts db')
       = map SavedAccounts._id (savedAccounts db)
    /\ deleted_accounts db db' = []
    /\ (wf db = true ->
        exists pre post,
          savedAccounts db = (pre ++ existing :: post)%list
          /\ savedAccounts db'
             = (pre
                  ++ SavedAccounts.mk (SavedAccounts._id existing)
                       (SavedAccounts.deviceId existing)
                       (SavedAccounts.username existing)
                       (Args.color args) (Args.status args) (Args.avatar args)
                       (Args.preferences args) (now 0%nat)
                  :: post)%list).
Proof.
  intros Hl. exists (updated now args existing db).
  split; [apply saveAccount_existing; exact Hl|].
  split; [intros device; apply count_updated|].
  split; [apply tbl_patch_ids; reflexivity|].
  split; [apply deleted_updated|].
  intros Hwf.
  destruct (hd_error_filter_Some _ _ _ Hl) as [pre [post [Hs _]]].
  exists pre, post. split; [exact Hs|].
  unfold updated. simpl. rewrite Hs.
  rewrite (tbl_patch_split SavedAccounts._id)
    by (rewrite <- Hs; apply wf_accounts_NoDup, Hwf).
  reflexivity.
Qed.

Lemma saveAccount_existing_in_place_witness :
  exists db',
    run (saveAccount (fun _ => 5%Z)
           (Args.mk "D1" "bob" "#ff0000" "" None prefs0)) scenario4
    = inr (tt, db')
    /\ (forall device, count_of device db' = count_of device scenario4)
    /\ map SavedAccounts._id (savedAccounts db')
       = map SavedAccounts._id (savedAccounts scenario4)
    /\ deleted_accounts scenario4 db' = []
    /\ (wf scenario4 = true ->
        exists pre post,
          savedAccounts scenario4
          = (pre ++ SavedAccounts.mk 2%N "D1" "bob" "#000000" "" None prefs0 2
               :: post)%list
          /\ savedAccounts db'
             = (pre ++ SavedAccounts.mk 2%N "D1" "bob" "#ff0000" "" None
                         prefs0 5
                  :: post)%list).
Proof.
  apply (saveAccount_existing_in_place (fun _ => 5%Z)
           (Args.mk "D1" "bob" "#ff0000" "" None prefs0) scenario4
           (SavedAccounts.mk 2%N "D1" "bob" "#000000" "" None prefs0 2)).
  vm_compute. reflexivity.
Defined.

(** ** [getAccountCount] *)

Lemma step_unseen db c device :
  Args.deviceId (call_args c) <> device ->
  count_of device db = 0%nat -> count_of device (step db c) = 0%nat.
Proof.
  intros Hne H0. unfold step.
  destruct (lookup_account (call_args c) db) as [e|] eqn:Hl.
  - rewrite (saveAccount_existing _ _ _ _ Hl), count_updated. exact H0.
  - rewrite (saveAccount_new _ _ _ Hl), count_created.
    pose proof (after_evict_le (Args.deviceId (call_args c)) device db).
    destruct (String.eqb_spec (Args.deviceId (call_args c)) device); [|lia].
    contradiction.
Qed.

Lemma run_calls_unseen calls db device :
  Forall (fun c => Args.deviceId (call_args c) <> device) calls ->
  count_of device db = 0%nat -> count_of device (run_calls calls db) = 0%nat.
Proof.
  unfold run_calls. revert db.
  induction calls as [|c calls IH]; simpl; intros db Hall H0; [exact H0|].
  inversion Hall as [|? ? Hc Hrest]; subst.
  apply IH; [exact Hrest | apply step_unseen; assumption].
Qed.

(** C6: for every deviceId and store, [getAccountCount] leaves every table
    as it was and returns [{count: n, maxAccounts: 3}], [n] being the
    number of [savedAccounts] documents with that deviceId; for a deviceId
    no call has ever saved, it returns [{count: 0, maxAccounts: 3}]. *)
Theorem getAccountCount_pure (device : string) (db : Db) :
  run (getAccountCount device) db
  = inr (mkAccountCount (count_of device db) 3, db)
  /\ (forall calls db0,
        savedAccounts db0 = [] ->
        Forall (fun c => Args.deviceId (call_args c) <> device) calls ->
        run (getAccountCount device) (run_calls calls db0)
        = inr (mkAccountCount 0 3, run_calls calls db0)).
Proof.
  split; [reflexivity|].
  intros calls db0 H0 Hall.
  change (run (getAccountCount device) (run_calls calls db0))
    with (@inr Error _
            (mkAccountCount (count_of device (run_calls calls db0)) 3,
             run_calls calls db0)).
  rewrite run_calls_unseen; [reflexivity | exact Hall |].
  unfold count_of, device_accounts. rewrite H0. reflexivity.
Qed.

Lemma getAccountCount_pure_witness :
  run (getAccountCount "D2")
      (run_calls
         [save "D1" "alice" "#000000" 1; save "D1" "bob" "#000000" 2;
          save "D1" "carol" "#000000" 3; save "D1" "dave" "#000000" 4;
          save "D1" "bob" "#ff0000" 5] empty_db)
  = inr (mkAccountCount 0 3,
         run_calls
           [save "D1" "alice" "#000000" 1; save "D1" "bob" "#000000" 2;
            save "D1" "carol" "#000000" 3; save "D1" "dave" "#000000" 4;
            save "D1" "bob" "#ff0000" 5] empty_db).
Proof.
  apply (proj2 (getAccountCount_pure "D2" empty_db)
           [save "D1" "alice" "#000000" 1; save "D1" "bob" "#000000" 2;
            save "D1" "carol" "#000000" 3; save "D1" "dave" "#000000" 4;
            save "D1" "bob" "#ff0000" 5] empty_db).
  - reflexivity.
  - repeat constructor; discriminate.
Defined.

(** ** [saveAccount]: the [users] table *)

(** C8: a [saveAccount] call for a pair not yet saved writes to [users]
    besides the [savedAccounts] insert: the first [users] document with
    the call's username is patched with the call's color, status, avatar
    and preferences, [lastSeen], [isOnline = true] and [lastActivity], or,
    when there is none, such a document is inserted; a call for a pair
    that exists leaves [users] as it was. *)
Theorem saveAccount_users_write (now : Clock) (args : Args.t) (db : Db) :
  wf db = true ->
  exists db',
    run (saveAccount now args) db = inr (tt, db')
    /\ match lookup_account args db with
       | Some _ => users db' = users db
       | None =>
           match lookup_user (Args.username args) db with
           | Some u =>
               exists pre post,
                 users db = (pre ++ u :: post)%list
                 /\ Users.username u = Args.username args
                 /\ (forall r, In r pre ->
                       Users.username r <> Args.username args)
                 /\ users db'
                    = (pre
                         ++ Users.mk (Users._id u) (Users.username u)
                              (Args.color args) (Args.status args)
                              (Args.avatar args) (Args.preferences args)
                              (Some (now 1%nat)) (Some true)
                              (Some (now 2%nat))
                         :: post)%list
           | None =>
               (forall r, In r (users db) ->
                  Users.username r <> Args.username args)
               /\ users db'
                  = (users db
                       ++ [Users.mk (N.succ (next_id db)) (Args.username args)
                             (Args.color args) (Args.status args)
                             (Args.avatar args) (Args.preferences args)
                             (Some (now 1%nat)) (Some true)
                             (Some (now 2%nat))])%list
           end
       end.
Proof.
  intros Hwf.
  destruct (lookup_account args db) as [e|] eqn:Hl.
  - exists (updated now args e db).
    split; [apply saveAccount_existing; exact Hl | reflexivity].
  - exists (created now args db).
    split; [apply saveAccount_new; exact Hl|].
    unfold created.
    destruct (lookup_user (Args.username args) db) as [u|] eqn:Hu.
    + destruct (hd_error_filter_Some _ _ _ Hu) as [pre [post [Hs [He Hpre]]]].
      exists pre, post. split; [exact Hs|].
      split; [apply String.eqb_eq; exact He|]. split.
      * intros r Hr. apply String.eqb_neq. apply Hpre. exact Hr.
      * simpl. rewrite Hs.
        rewrite (tbl_patch_split Users._id)
          by (rewrite <- Hs; apply wf_users_NoDup, Hwf).
        reflexivity.
    + split; [|reflexivity].
      intros r Hr. apply String.eqb_neq.
      apply (hd_error_filter_None _ _ Hu). exact Hr.
Qed.

Lemma saveAccount_users_write_witness :
  exists db',
    run (saveAccount (fun _ => 4%Z)
           (Args.mk "D1" "dave" "#000000" "" None prefs0)) scenario3
    = inr (tt, db')
    /\ (forall r, In r (users scenario3) -> Users.username r <> "dave")
    /\ users db'
       = (users scenario3
            ++ [Users.mk 7%N "dave" "#000000" "" None prefs0 (Some 4%Z)
                  (Some true) (Some 4%Z)])%list.
Proof.
  apply (saveAccount_users_write (fun _ => 4%Z)
           (Args.mk "D1" "dave" "#000000" "" None prefs0) scenario3).
  vm_compute. reflexivity.
Defined.

(** ** [saveAccount]: other devices *)

Lemma updated_other_device now args existing db device :
  wf db = true ->
  In existing (savedAccounts db) ->
  SavedAccounts.deviceId existing <> device ->
  device_accounts device (updated now args existing db)
  = device_accounts device db.
Proof.
  intros Hwf Hin Hne. unfold device_accounts, updated. simpl.
  apply filter_tbl_patch_other. intros d Hd E.
  assert (d = existing) as ->.
  { apply (NoDup_ids_inj SavedAccounts._id (savedAccounts db)); auto.
    apply wf_accounts_NoDup, Hwf. }
  rewrite same_device_patch. split; apply String.eqb_neq; exact Hne.
Qed.

Lemma after_evict_other_device device' device db :
  wf db = true ->
  device' <> device ->
  filter (same_device device) (after_evict device' db)
  = device_accounts device db.
Proof.
  intros Hwf Hne. unfold after_evict, device_accounts.
  destruct (evicted device' db) as [o|] eqn:He; [|reflexivity].
  destruct (evicted_in _ _ _ He) as [Hin Hdev].
  apply same_device_true in Hdev.
  apply filter_tbl_delete_other. intros d Hd E.
  assert (d = o) as ->.
  { apply (NoDup_ids_inj SavedAccounts._id (savedAccounts db)); auto.
    apply wf_accounts_NoDup, Hwf. }
  apply String.eqb_neq. congruence.
Qed.

Lemma created_other_device now args db device :
  wf db = true ->
  Args.deviceId args <> device ->
  device_accounts device (created now args db) = device_accounts device db.
Proof.
  intros Hwf Hne. unfold device_accounts at 1.
  rewrite savedAccounts_created, filter_app.
  rewrite after_evict_other_device by assumption.
  simpl. unfold same_device at 1. simpl.
  destruct (String.eqb_spec (Args.deviceId args) device); [contradiction|].
  apply app_nil_r.
Qed.

(** C9: for distinct device identifiers, a [saveAccount] call with one of
    them leaves the [savedAccounts] documents of the other unchanged. *)
Theorem saveAccount_other_devices_untouched
    (now : Clock) (args : Args.t) (db : Db) (device : string) :
  wf db = true ->
  Args.deviceId args <> device ->
  exists db',
    run (saveAccount now args) db = inr (tt, db')
    /\ device_accounts device db' = device_accounts device db.
Proof.
  intros Hwf Hne.
  destruct (lookup_account args db) as [e|] eqn:Hl.
  - exists (updated now args e db).
    split; [apply saveAccount_existing; exact Hl|].
    destruct (hd_error_filter_Some _ _ _ Hl) as [pre [post [Hs [He _]]]].
    apply same_account_true in He. destruct He as [Hd _].
    apply updated_other_device; [exact Hwf | | congruence].
    rewrite Hs. apply in_elt.
  - exists (created now args db).
    split; [apply saveAccount_new; exact Hl|].
    apply created_other_device; assumption.
Qed.

Lemma saveAccount_other_devices_untouched_witness :
  exists db',
    run (saveAccount (fun _ => 6%Z)
           (Args.mk "D2" "erin" "#00ff00" "" None prefs0)) scenario5
    = inr (tt, db')
    /\ device_accounts "D1" db' = device_accounts "D1" scenario5.
Proof.
  apply (saveAccount_other_devices_untouched (fun _ => 6%Z)
           (Args.mk "D2" "erin" "#00ff00" "" None prefs0) scenario5 "D1").
  - vm_compute. reflexivity.
  - discriminate.
Defined.

(** ** [saveAccount]: how many documents one call deletes *)

Lemma created_evicts device db :
  wf db = true ->
  (3 <= count_of device db)%nat ->
  exists o pre post,
    evicted device db = Some o
    /\ same_device device o = true
    /\ savedAccounts db = (pre ++ o :: post)%list
    /\ after_evict device db = (pre ++ post)%list.
Proof.
  intros Hwf Hc.
  destruct (evicted_some _ _ Hc) as [o [_ [_ [He _]]]].
  destruct (evicted_in _ _ _ He) as [Hin Hdev].
  destruct (in_split _ _ Hin) as [pre [post Hs]].
  exists o, pre, post. repeat split; try assumption.
  unfold after_evict. rewrite He, Hs. apply tbl_delete_split.
  rewrite <- Hs. apply wf_accounts_NoDup, Hwf.
Qed.

Lemma count_created_full now args db :
  wf db = true ->
  (3 <= count_of (Args.deviceId args) db)%nat ->
  count_of (Args.deviceId args) (created now args db)
  = count_of (Args.deviceId args) db.
Proof.
  intros Hwf Hc.
  destruct (created_evicts _ _ Hwf Hc) as [o [pre [post [_ [Hdev [Hs Ha]]]]]].
  rewrite count_created, Ha, String.eqb_refl.
  unfold count_of, device_accounts. rewrite Hs, !filter_app. simpl.
  rewrite Hdev, !length_app. simpl. lia.
Qed.

Lemma deleted_created now args db :
  wf db = true ->
  (length (deleted_accounts db (created now args db)) <= 1)%nat.
Proof.
  intros Hwf. unfold deleted_accounts. rewrite savedAccounts_created.
  destruct (Nat.lt_ge_cases (count_of (Args.deviceId args) db) 3) as [Hlt|Hge].
  - unfold after_evict. rewrite (evicted_none _ _ Hlt).
    rewrite deleted_none; [simpl; lia|].
    intros d Hd. exists d. split; [|reflexivity].
    apply in_or_app. left. exact Hd.
  - destruct (created_evicts _ _ Hwf Hge) as [o [pre [post [_ [_ [Hs Ha]]]]]].
    rewrite Ha, Hs, filter_app. simpl.
    assert (forall d, In d (pre ++ post) ->
              exists d', In d' ((pre ++ post)
                                  ++ [new_account (next_id db) now args])
                         /\ SavedAccounts._id d' = SavedAccounts._id d) as Hkept.
    { intros d Hd. exists d. split; [|reflexivity].
      apply in_or_app. left. exact Hd. }
    rewrite (deleted_none pre), (deleted_none post).
    + destruct (negb _); simpl; lia.
    + intros d Hd. apply Hkept, in_or_app. right. exact Hd.
    + intros d Hd. apply Hkept, in_or_app. left. exact Hd.
Qed.

(** C10: one [saveAccount] call deletes at most one [savedAccounts]
    document.  Hence a device within the cap stays within it, and a device
    holding more than 3 documents still holds more than 3 after the call;
    with a new username its number of documents is unchanged. *)
Theorem saveAccount_deletes_at_most_one
    (now : Clock) (args : Args.t) (db : Db) :
  wf db = true ->
  exists db',
    run (saveAccount now args) db = inr (tt, db')
    /\ (length (deleted_accounts db db') <= 1)%nat
    /\ (forall device,
          (count_of device db <= 3)%nat -> (count_of device db' <= 3)%nat)
    /\ (forall device,
          (3 < count_of device db)%nat -> (3 < count_of device db')%nat)
    /\ (lookup_account args db = None ->
        (3 < count_of (Args.deviceId args) db)%nat ->
        count_of (Args.deviceId args) db'
        = count_of (Args.deviceId args) db).
Proof.
  intros Hwf.
  destruct (lookup_account args db) as [e|] eqn:Hl.
  - exists (updated now args e db).
    split; [apply saveAccount_existing; exact Hl|].
    split; [rewrite deleted_updated; simpl; lia|].
    split; [intros device; rewrite count_updated; auto|].
    split; [intros device; rewrite count_updated; auto|].
    discriminate.
  - exists (created now args db).
    split; [apply saveAccount_new; exact Hl|].
    split; [apply deleted_created; exact Hwf|].
    split.
    { intros device Hc.
      pose proof (step_cap db (mkCall now args) device Hc) as H.
      unfold step in H. cbn [call_now call_args] in H.
      rewrite (saveAccount_new _ _ _ Hl) in H. exact H. }
    split.
    { intros device Hc.
      destruct (String.eqb_spec (Args.deviceId args) device) as [E|E].
      - subst device. rewrite count_created_full; [exact Hc | exact Hwf | lia].
      - unfold count_of. rewrite created_other_device by assumption.
        exact Hc. }
    intros _ Hc. apply count_created_full; [exact Hwf | lia].
Qed.

Lemma saveAccount_deletes_at_most_one_witness :
  exists db',
    run (saveAccount (fun _ => 9%Z)
           (Args.mk "D1" "erin" "#000000" "" None prefs0)) crowded
    = inr (tt, db')
    /\ (length (deleted_accounts crowded db') <= 1)%nat
    /\ (forall device,
          (count_of device crowded <= 3)%nat -> (count_of device db' <= 3)%nat)
    /\ (forall device,
          (3 < count_of device crowded)%nat -> (3 < count_of device db')%nat)
    /\ (lookup_account (Args.mk "D1" "erin" "#000000" "" None prefs0) crowded
        = None ->
        (3 < count_of "D1" crowded)%nat ->
        count_of "D1" db' = count_of "D1" crowded).
Proof.
  apply (saveAccount_deletes_at_most_one (fun _ => 9%Z)
           (Args.mk "D1" "erin" "#000000" "" None prefs0) crowded).
  vm_compute. reflexivity.
Defined.

(** The device of [crowded] holds 4 documents before and after a save. *)
Example crowded_stays_crowded :
  wf crowded = true
  /\ count_of "D1" crowded = 4%nat
  /\ count_of "D1" (step crowded (save "D1" "erin" "#000000" 9)) = 4%nat.
Proof. repeat split. Qed.

(** ** Well-formedness is kept by [saveAccount] *)

Lemma wf_spec db :
  wf db = true <->
  forall i,
    (count_occ N.eq_dec (all_ids db) i <= 1)%nat
    /\ ((0 < count_occ N.eq_dec (all_ids db) i)%nat -> (i < next_id db)%N).
Proof.
  unfold wf. rewrite andb_true_iff, distinct_NoDup, forallb_forall.
  rewrite (NoDup_count_occ N.eq_dec). split.
  - intros [Hnd Hlt] i. split; [apply Hnd|].
    intros Hi. apply N.ltb_lt, Hlt. apply (count_occ_In N.eq_dec). exact Hi.
  - intros H. split; [intros i; apply H|].
    intros i Hi. apply N.ltb_lt, H. apply (count_occ_In N.eq_dec). exact Hi.
Qed.

Lemma count_occ_ids_delete j (t : list SavedAccounts.doc) i :
  (count_occ N.eq_dec
     (map SavedAccounts._id (tbl_delete SavedAccounts._id j t)) i
   <= count_occ N.eq_dec (map SavedAccounts._id t) i)%nat.
Proof.
  induction t as [|d t IH]; simpl; [lia|].
  destruct (N.eqb (SavedAccounts._id d) j); simpl;
    destruct (N.eq_dec (SavedAccounts._id d) i); lia.
Qed.

Lemma count_occ_ids_after_evict device db i :
  (count_occ N.eq_dec (map SavedAccounts._id (after_evict device db)) i
   <= count_occ N.eq_dec (map SavedAccounts._id (savedAccounts db)) i)%nat.
Proof.
  unfold after_evict.
  destruct (evicted device db); [apply count_occ_ids_delete | lia].
Qed.

Lemma wf_updated now args existing db :
  wf db = true -> wf (updated now args existing db) = true.
Proof.
  unfold wf, all_ids, updated. simpl.
  rewrite tbl_patch_ids by reflexivity. auto.
Qed.

Lemma wf_created now args db :
  wf db = true -> wf (created now args db) = true.
Proof.
  rewrite !wf_spec. intros H i.
  assert (forall j, (next_id db <= j)%N ->
                    count_occ N.eq_dec (all_ids db) j = 0%nat) as H0.
  { intros j Hj. destruct (H j) as [_ Hlt].
    destruct (count_occ N.eq_dec (all_ids db) j); [reflexivity|].
    assert (j < next_id db)%N by (apply Hlt; lia). lia. }
  destruct (H i) as [H1 H2].
  pose proof (count_occ_ids_after_evict (Args.deviceId args) db i) as Hev.
  pose proof (H0 (next_id db) (N.le_refl _)) as Hn.
  pose proof (H0 (N.succ (next_id db)) (N.le_succ_diag_r _)) as Hn'.
  unfold created, all_ids in *.
  rewrite !count_occ_app in H1, H2, Hn, Hn'.
  destruct (lookup_user (Args.username args) db); simpl;
    rewrite ?map_app, ?count_occ_app, ?tbl_patch_ids by reflexivity; simpl.
  - destruct (N.eq_dec (next_id db) i) as [E|E]; [subst i|]; lia.
  - destruct (N.eq_dec (next_id db) i) as [E|E];
      destruct (N.eq_dec (N.succ (next_id db)) i) as [E'|E'];
      try subst i; lia.
Qed.

(** Every call keeps the store well-formed. *)
Lemma wf_step db c : wf db = true -> wf (step db c) = true.
Proof.
  intros Hwf. unfold step.
  destruct (lookup_account (call_args c) db) as [e|] eqn:Hl.
  - rewrite (saveAccount_existing _ _ _ _ Hl). apply wf_updated, Hwf.
  - rewrite (saveAccount_new _ _ _ Hl). apply wf_created, Hwf.
Qed.

(** Every store reached from the empty one is well-formed. *)
Lemma wf_run_calls calls : wf (run_calls calls empty_db) = true.
Proof.
  unfold run_calls.
  assert (wf empty_db = true) as H by reflexivity.
  revert H. generalize empty_db.
  induction calls as [|c calls IH]; simpl; intros db H; [exact H|].
  apply IH, wf_step, H.
Qed.

(** [saveAccount] never throws. *)
Lemma saveAccount_total now args db :
  exists db', run (saveAccount now args) db = inr (tt, db').
Proof.
  destruct (lookup_account args db) as [e|] eqn:Hl.
  - eexists. apply saveAccount_existing. exact Hl.
  - eexists. apply saveAccount_new. exact Hl.
Qed.

(** * Further facts on convex/users.ts *)

(** ** Selections under patch and insert *)

Lemma filter_map_stable {D} (p : D -> bool) (g : D -> D) (t : list D) :
  (forall d, p (g d) = p d) -> filter p (map g t) = map g (filter p t).
Proof.
  intros Hp. induction t as [|d t IH]; simpl; [reflexivity|].
  rewrite Hp. destruct (p d); simpl; rewrite IH; reflexivity.
Qed.

Lemma hd_error_map_opt {A B} (g : A -> B) (l : list A) :
  hd_error (map g l) = option_map g (hd_error l).
Proof. destruct l; reflexivity. Qed.

(** The first selected document is still the first after a patch that
    does not change what the selection sees. *)
Lemma first_after_patch {D} (id_of : D -> Id) (p : D -> bool) f
    (t : list D) u :
  (forall d, p (f d) = p d) ->
  hd_error (filter p t) = Some u ->
  hd_error (filter p (tbl_patch id_of (id_of u) f t)) = Some (f u).
Proof.
  intros Hp Hu. unfold tbl_patch. rewrite filter_map_stable.
  - rewrite hd_error_map_opt, Hu. simpl. rewrite N.eqb_refl. reflexivity.
  - intros d. destruct (N.eqb (id_of d) (id_of u)); [apply Hp | reflexivity].
Qed.

Lemma first_after_insert {D} (p : D -> bool) (t : list D) x :
  hd_error (filter p t) = None -> p x = true ->
  hd_error (filter p (t ++ [x])) = Some x.
Proof.
  intros Hn Hx. rewrite filter_app. simpl. rewrite Hx.
  destruct (filter p t); [reflexivity | discriminate].
Qed.

Lemma first_kept_by_insert {D} (p : D -> bool) (t : list D) x u :
  hd_error (filter p t) = Some u ->
  hd_error (filter p (t ++ [x])) = Some u.
Proof.
  intros Hu. rewrite filter_app.
  destruct (filter p t); [discriminate | exact Hu].
Qed.

Lemma after_evict_incl device db d :
  In d (after_evict device db) -> In d (savedAccounts db).
Proof.
  unfold after_evict. destruct (evicted device db); [|auto].
  apply tbl_delete_incl.
Qed.

Lemma lookup_created now args db :
  lookup_account args db = None ->
  lookup_account args (created now args db)
  = Some (new_account (next_id db) now args).
Proof.
  intros Hl. unfold lookup_account. rewrite savedAccounts_created.
  apply first_after_insert.
  - destruct (filter _ (after_evict _ _)) as [|d l] eqn:E; [reflexivity|].
    assert (In d (d :: l)) as Hin by (left; reflexivity).
    rewrite <- E in Hin. apply filter_In in Hin. destruct Hin as [Hin Hp].
    apply after_evict_incl in Hin.
    rewrite (hd_error_filter_None _ _ Hl d Hin) in Hp. discriminate.
  - unfold same_account. simpl. rewrite !String.eqb_refl. reflexivity.
Qed.

Lemma lookup_updated now args db existing :
  lookup_account args db = Some existing ->
  lookup_account args (updated now args existing db)
  = Some (patch_savedAccount (account_fields now args) existing).
Proof.
  intros Hl. unfold lookup_account, updated. simpl.
  apply first_after_patch; [reflexivity | exact Hl].
Qed.

(** X1: saving then looking the pair up finds a document with the call's
    data, whatever the store was. *)
Theorem saveAccount_then_lookup (now : Clock) (args : Args.t) (db : Db) :
  exists db' d,
    run (saveAccount now args) db = inr (tt, db')
    /\ lookup_account args db' = Some d
    /\ SavedAccounts.deviceId d = Args.deviceId args
    /\ SavedAccounts.username d = Args.username args
    /\ SavedAccounts.color d = Args.color args
    /\ SavedAccounts.status d = Args.status args
    /\ SavedAccounts.avatar d = Args.avatar args
    /\ SavedAccounts.preferences d = Args.preferences args
    /\ SavedAccounts.lastUsed d = now 0%nat.
Proof.
  destruct (lookup_account args db) as [e|] eqn:Hl.
  - exists (updated now args e db),
           (patch_savedAccount (account_fields now args) e).
    split; [apply saveAccount_existing; exact Hl|].
    split; [apply lookup_updated; exact Hl|].
    destruct (hd_error_filter_Some _ _ _ Hl) as [_ [_ [_ [He _]]]].
    apply same_account_true in He. simpl. tauto.
  - exists (created now args db), (new_account (next_id db) now args).
    split; [apply saveAccount_new; exact Hl|].
    split; [apply lookup_created; exact Hl|].
    simpl. auto 10.
Qed.

(** ** One document per (deviceId, username) *)

Lemma NoDup_map_filter {A B} (k : A -> B) (q : A -> bool) (l : list A) :
  NoDup (map k l) -> NoDup (map k (filter q l)).
Proof.
  induction l as [|a l IH]; simpl; intros Hnd; [constructor|].
  inversion Hnd as [|? ? Hni Hnd']; subst.
  destruct (q a); simpl; [|apply IH; exact Hnd'].
  constructor; [|apply IH; exact Hnd'].
  intros Hin. apply Hni. apply in_map_iff in Hin.
  destruct Hin as [x [Hx Hin]]. apply filter_In in Hin.
  apply in_map_iff. exists x. tauto.
Qed.

Lemma account_keys_step db c :
  NoDup (account_keys db) -> NoDup (account_keys (step db c)).
Proof.
  intros Hnd. unfold step.
  destruct (lookup_account (call_args c) db) as [e|] eqn:Hl.
  - rewrite (saveAccount_existing _ _ _ _ Hl).
    unfold account_keys, updated, tbl_patch. simpl. rewrite map_map.
    erewrite map_ext; [exact Hnd|].
    intros d. destruct (N.eqb _ _); reflexivity.
  - rewrite (saveAccount_new _ _ _ Hl).
    unfold account_keys. rewrite savedAccounts_created, map_app.
    apply NoDup_app.
    + unfold after_evict. destruct (evicted _ _); [|exact Hnd].
      apply NoDup_map_filter. exact Hnd.
    + simpl. constructor; [intros [] | constructor].
    + intros k Hk [Hnew|[]]. apply in_map_iff in Hk.
      destruct Hk as [d [Hd Hin]]. apply after_evict_incl in Hin.
      pose proof (hd_error_filter_None _ _ Hl d Hin) as Hp.
      assert (same_account (Args.deviceId (call_args c))
                (Args.username (call_args c)) d = true) as Ht.
      { apply same_account_true. unfold account_key in *. simpl in Hnew.
        rewrite <- Hnew in Hd. injection Hd as H1 H2. auto. }
      congruence.
Qed.

(** X2: starting without saved accounts, after any sequence of
    [saveAccount] calls no two [savedAccounts] documents have the same
    (deviceId, username) pair. *)
Theorem saveAccount_unique_pairs (calls : list Call) (db0 : Db) :
  savedAccounts db0 = [] ->
  NoDup (account_keys (run_calls calls db0)).
Proof.
  intros H0.
  assert (NoDup (account_keys db0)) as Hnd.
  { unfold account_keys. rewrite H0. constructor. }
  clear H0. revert db0 Hnd. unfold run_calls.
  induction calls as [|c calls IH]; simpl; intros db0 Hnd; [exact Hnd|].
  apply IH, account_keys_step, Hnd.
Qed.

Lemma saveAccount_unique_pairs_witness :
  savedAccounts empty_db = []
  /\ NoDup (account_keys
              (run_calls [save "D1" "alice" "#000000" 1;
                          save "D1" "alice" "#ff0000" 2;
                          save "D2" "alice" "#000000" 3] empty_db)).
Proof.
  split; [reflexivity|].
  apply (saveAccount_unique_pairs
           [save "D1" "alice" "#000000" 1; save "D1" "alice" "#ff0000" 2;
            save "D2" "alice" "#000000" 3] empty_db).
  reflexivity.
Defined.

(** ** A new account in the listing *)

(** X3: after [saveAccount] has created a new pair, [getSavedAccounts] for
    that device returns the new account first. *)
Theorem saveAccount_new_listed_first (now : Clock) (args : Args.t) (db : Db) :
  lookup_account args db = None ->
  exists db' rest,
    run (saveAccount now args) db = inr (tt, db')
    /\ run (getSavedAccounts (Args.deviceId args)) db'
       = inr (new_account (next_id db) now args :: rest, db').
Proof.
  intros Hl. exists (created now args db).
  exists (firstn 2 (rev (filter (same_device (Args.deviceId args))
                           (after_evict (Args.deviceId args) db)))).
  split; [apply saveAccount_new; exact Hl|].
  rewrite getSavedAccounts_run. unfold device_accounts.
  rewrite savedAccounts_created, filter_app. simpl.
  unfold same_device at 2. simpl. rewrite String.eqb_refl.
  rewrite rev_app_distr. reflexivity.
Qed.

Lemma saveAccount_new_listed_first_witness :
  exists db' rest,
    run (saveAccount (fun _ => 4%Z)
           (Args.mk "D1" "dave" "#000000" "" None prefs0)) scenario3
    = inr (tt, db')
    /\ run (getSavedAccounts "D1") db'
       = inr (new_account (next_id scenario3) (fun _ => 4%Z)
                (Args.mk "D1" "dave" "#000000" "" None prefs0) :: rest, db').
Proof.
  apply (saveAccount_new_listed_first (fun _ => 4%Z)
           (Args.mk "D1" "dave" "#000000" "" None prefs0) scenario3).
  vm_compute. reflexivity.
Defined.

(** ** The pre-check of the account-creation flow *)

(** X4: when [getAccountCount] reports a count below [maxAccounts], as the
    account-creation flow of the client requires before it saves, a
    [saveAccount] call for a new pair evicts nothing: the new document is
    appended and the device's count grows by one. *)
Theorem saveAccount_below_limit_keeps_all
    (now : Clock) (args : Args.t) (db : Db) (c : AccountCount) :
  run (getAccountCount (Args.deviceId args)) db = inr (c, db) ->
  (count c < maxAccounts c)%nat ->
  lookup_account args db = None ->
  exists db',
    run (saveAccount now args) db = inr (tt, db')
    /\ savedAccounts db'
       = (savedAccounts db ++ [new_account (next_id db) now args])%list
    /\ deleted_accounts db db' = []
    /\ count_of (Args.deviceId args) db' = S (count c).
Proof.
  intros Hc Hlt Hl.
  assert (c = mkAccountCount (count_of (Args.deviceId args) db) 3) as ->.
  { change (run (getAccountCount (Args.deviceId args)) db)
      with (@inr Error _
              (mkAccountCount (count_of (Args.deviceId args) db) 3, db))
      in Hc.
    congruence. }
  simpl in Hlt.
  assert (after_evict (Args.deviceId args) db = savedAccounts db) as Ha.
  { unfold after_evict. rewrite (evicted_none _ _ Hlt). reflexivity. }
  exists (created now args db).
  split; [apply saveAccount_new; exact Hl|].
  split; [rewrite savedAccounts_created, Ha; reflexivity|].
  split.
  - unfold deleted_accounts. rewrite savedAccounts_created, Ha.
    apply deleted_none. intros d Hd. exists d. split; [|reflexivity].
    apply in_or_app. left. exact Hd.
  - rewrite count_created, Ha, String.eqb_refl. simpl.
    unfold count_of, device_accounts. lia.
Qed.

Lemma saveAccount_below_limit_keeps_all_witness :
  exists db',
    run (saveAccount (fun _ => 6%Z)
           (Args.mk "D2" "erin" "#000000" "" None prefs0)) scenario5
    = inr (tt, db')
    /\ savedAccounts db'
       = (savedAccounts scenario5
            ++ [new_account (next_id scenario5) (fun _ => 6%Z)
                  (Args.mk "D2" "erin" "#000000" "" None prefs0)])%list
    /\ deleted_accounts scenario5 db' = []
    /\ count_of "D2" db' = 1%nat.
Proof.
  apply (saveAccount_below_limit_keeps_all (fun _ => 6%Z)
           (Args.mk "D2" "erin" "#000000" "" None prefs0) scenario5
           (mkAccountCount 0 3)).
  - vm_compute. reflexivity.
  - simpl. lia.
  - vm_compute. reflexivity.
Defined.

(** ** Saving twice *)

Lemma tbl_patch_fixed {D} (id_of : D -> Id) i f (t : list D) :
  (forall d, In d t -> id_of d = i -> f d = d) ->
  tbl_patch id_of i f t = t.
Proof.
  induction t as [|d t IH]; simpl; intros H; [reflexivity|].
  rewrite IH by (intros d' Hin; apply H; right; exact Hin).
  destruct (N.eqb_spec (id_of d) i) as [E|E]; [|reflexivity].
  rewrite (H d (or_introl eq_refl) E). reflexivity.
Qed.

Lemma tbl_patch_twice {D} (id_of : D -> Id) i f (t : list D) :
  (forall d, id_of (f d) = id_of d) ->
  (forall d, f (f d) = f d) ->
  tbl_patch id_of i f (tbl_patch id_of i f t) = tbl_patch id_of i f t.
Proof.
  intros Hid Hf. apply tbl_patch_fixed. intros d Hd E.
  unfold tbl_patch in Hd. apply in_map_iff in Hd.
  destruct Hd as [x [Hx _]].
  destruct (N.eqb (id_of x) i) eqn:Ex; subst d; [apply Hf|].
  apply N.eqb_neq in Ex. contradiction.
Qed.

Lemma wf_accounts_below db d :
  wf db = true -> In d (savedAccounts db) ->
  (SavedAccounts._id d < next_id db)%N.
Proof.
  unfold wf, all_ids. rewrite andb_true_iff, forallb_forall.
  intros [_ H] Hd. apply N.ltb_lt, H, in_or_app. left.
  apply in_map. exact Hd.
Qed.

Lemma set_savedAccounts_same db : set_savedAccounts (savedAccounts db) db = db.
Proof. destruct db; reflexivity. Qed.

Lemma step_existing db c existing :
  lookup_account (call_args c) db = Some existing ->
  step db c = updated (call_now c) (call_args c) existing db.
Proof.
  intros Hl. unfold step. rewrite (saveAccount_existing _ _ _ _ Hl).
  reflexivity.
Qed.

Lemma step_new db c :
  lookup_account (call_args c) db = None ->
  step db c = created (call_now c) (call_args c) db.
Proof.
  intros Hl. unfold step. rewrite (saveAccount_new _ _ _ Hl). reflexivity.
Qed.

(** X5: repeating a [saveAccount] call with the same data and clock
    leaves a well-formed store as the first call left it. *)
Theorem saveAccount_idempotent (db : Db) (c : Call) :
  wf db = true ->
  step (step db c) c = step db c.
Proof.
  intros Hwf.
  destruct (lookup_account (call_args c) db) as [e|] eqn:Hl.
  - rewrite (step_existing _ _ _ Hl).
    rewrite (step_existing _ _ _ (lookup_updated _ _ _ _ Hl)).
    unfold updated. simpl. unfold set_savedAccounts. simpl.
    rewrite tbl_patch_twice by reflexivity. reflexivity.
  - rewrite (step_new _ _ Hl).
    rewrite (step_existing _ _ _ (lookup_created _ _ _ Hl)).
    unfold updated.
    rewrite tbl_patch_fixed; [apply set_savedAccounts_same|].
    intros d Hd E. simpl in E.
    rewrite savedAccounts_created in Hd. apply in_app_or in Hd.
    destruct Hd as [Hd|[<-|[]]]; [|reflexivity].
    apply after_evict_incl in Hd.
    pose proof (wf_accounts_below _ _ Hwf Hd). lia.
Qed.

Lemma saveAccount_idempotent_witness :
  step (step scenario3 (save "D1" "dave" "#000000" 4))
       (save "D1" "dave" "#000000" 4)
  = step scenario3 (save "D1" "dave" "#000000" 4).
Proof.
  apply (saveAccount_idempotent scenario3 (save "D1" "dave" "#000000" 4)).
  vm_compute. reflexivity.
Defined.

(** ** Profile updates *)

Lemma getPreferences_run name db :
  run (getPreferences name) db
  = inr (option_map Users.preferences (lookup_user name db), db).
Proof. reflexivity. Qed.

Lemma getUser_run name db :
  run (getUser name) db = inr (lookup_user name db, db).
Proof. reflexivity. Qed.

Lemma checkUsername_run name db :
  run (checkUsername name) db
  = inr (mkUsernameCheck
           (match lookup_user name db with Some _ => true | None => false end),
         db).
Proof. reflexivity. Qed.

Lemma same_user_true name d :
  same_user name d = true <-> Users.username d = name.
Proof. apply String.eqb_eq. Qed.

Lemma updatePreferences_run now name prefs db :
  run (updatePreferences now name prefs) db
  = inr (tt,
         match lookup_user name db with
         | Some u =>
             set_users
               (tbl_patch Users._id (Users._id u)
                  (fun d =>
                     Users.mk (Users._id d) (Users.username d) (Users.color d)
                       (Users.status d) (Users.avatar d) prefs
                       (Some (now 0%nat)) (Users.isOnline d)
                       (Some (now 1%nat)))
                  (users db)) db
         | None =>
             bump_id
               (set_users
                  (users db ++
                     [Users.mk (next_id db) name "#000000" "" None prefs
                        (Some (now 0%nat)) (Some true) (Some (now 1%nat))])
                  db)
         end).
Proof.
  unfold run, updatePreferences, lookup_user. cbn -[filter tbl_patch].
  destruct (hd_error (filter (same_user name) (users db))); reflexivity.
Qed.

(** X6: after [updatePreferences], [getPreferences] for the same username
    returns the preferences just written, whether the user record existed
    or was created by the call. *)
Theorem updatePreferences_then_get
    (now : Clock) (name : string) (prefs : Preferences) (db : Db) :
  exists db',
    run (updatePreferences now name prefs) db = inr (tt, db')
    /\ run (getPreferences name) db' = inr (Some prefs, db').
Proof.
  eexists. split; [apply updatePreferences_run|].
  rewrite getPreferences_run. unfold lookup_user.
  destruct (hd_error (filter (same_user name) (users db))) as [u|] eqn:Hu.
  - simpl. rewrite (first_after_patch Users._id) with (u := u);
      [reflexivity | reflexivity | exact Hu].
  - simpl. rewrite first_after_insert; [reflexivity | exact Hu |].
    apply String.eqb_refl.
Qed.

Lemma updateStatus_run now name st db :
  run (updateStatus now name st) db
  = inr (tt,
         match lookup_user name db with
         | Some u =>
             bump_id
               (set_userActivity
                  (userActivity db ++
                     [UserActivity.mk (next_id db) name "status_change"
                        (now 2%nat) (Some st)])
                  (set_users
                     (tbl_patch Users._id (Users._id u)
                        (fun d =>
                           Users.mk (Users._id d) (Users.username d)
                             (Users.color d) st (Users.avatar d)
                             (Users.preferences d) (Some (now 0%nat))
                             (Users.isOnline d) (Some (now 1%nat)))
                        (users db)) db))
         | None =>
             bump_id
               (set_userActivity
                  (userActivity db ++
                     [UserActivity.mk (N.succ (next_id db)) name
                        "status_change" (now 2%nat) (Some st)])
                  (bump_id
                     (set_users
                        (users db ++
                           [Users.mk (next_id db) name "#000000" st None
                              no_preferences (Some (now 0%nat)) (Some true)
                              (Some (now 1%nat))])
                        db)))
         end).
Proof.
  unfold run, updateStatus, lookup_user. cbn -[filter tbl_patch].
  destruct (hd_error (filter (same_user name) (users db))); reflexivity.
Qed.

(** X7: after [updateStatus], [getUser] for the username returns a record
    with that username and the new status, and exactly one
    [status_change] entry with the status as details is appended to the
    activity log, also when the call had to create the user. *)
Theorem updateStatus_then_getUser
    (now : Clock) (name st : string) (db : Db) :
  exists db' u i,
    run (updateStatus now name st) db = inr (tt, db')
    /\ run (getUser name) db' = inr (Some u, db')
    /\ Users.username u = name
    /\ Users.status u = st
    /\ userActivity db'
       = (userActivity db
            ++ [UserActivity.mk i name "status_change" (now 2%nat)
                  (Some st)])%list.
Proof.
  destruct (lookup_user name db) as [u|] eqn:Hu.
  - eexists. eexists. exists (next_id db).
    split; [apply updateStatus_run|]. rewrite Hu, getUser_run.
    unfold lookup_user in *. simpl.
    rewrite (first_after_patch Users._id) with (u := u);
      [|reflexivity | exact Hu].
    repeat split. simpl.
    destruct (hd_error_filter_Some _ _ _ Hu) as [_ [_ [_ [He _]]]].
    apply same_user_true. exact He.
  - eexists. eexists. exists (N.succ (next_id db)).
    split; [apply updateStatus_run|]. rewrite Hu, getUser_run.
    unfold lookup_user in *. simpl.
    rewrite first_after_insert; [| exact Hu | apply String.eqb_refl].
    repeat split.
Qed.

Lemma updateAppearance_run now name col db :
  run (updateAppearance now name col) db
  = inr (tt,
         match lookup_user name db with
         | Some u =>
             bump_id
               (set_userActivity
                  (userActivity db ++
                     [UserActivity.mk (next_id db) name "color_change"
                        (now 1%nat) (Some col)])
                  (set_users
                     (tbl_patch Users._id (Users._id u)
                        (fun d =>
                           Users.mk (Users._id d) (Users.username d) col
                             (Users.status d) (Users.avatar d)
                             (Users.preferences d) (Users.lastSeen d)
                             (Users.isOnline d) (Some (now 0%nat)))
                        (users db)) db))
         | None =>
             bump_id
               (set_userActivity
                  (userActivity db ++
                     [UserActivity.mk (N.succ (next_id db)) name
                        "color_change" (now 2%nat) (Some col)])
                  (bump_id
                     (set_users
                        (users db ++
                           [Users.mk (next_id db) name col "" None
                              no_preferences (Some (now 0%nat)) (Some true)
                              (Some (now 1%nat))])
                        db)))
         end).
Proof.
  unfold run, updateAppearance, lookup_user. cbn -[filter tbl_patch].
  destruct (hd_error (filter (same_user name) (users db))); reflexivity.
Qed.

(** X8: after [updateAppearance], [getUser] for the username returns a
    record with the new color, and one [color_change] entry with the color
    as details is appended to the activity log; an existing record keeps
    its status, avatar, preferences, [lastSeen] and [isOnline]. *)
Theorem updateAppearance_then_getUser
    (now : Clock) (name col : string) (db : Db) :
  exists db' u i t,
    run (updateAppearance now name col) db = inr (tt, db')
    /\ run (getUser name) db' = inr (Some u, db')
    /\ Users.username u = name
    /\ Users.color u = col
    /\ userActivity db'
       = (userActivity db
            ++ [UserActivity.mk i name "color_change" t (Some col)])%list
    /\ (forall u0, lookup_user name db = Some u0 ->
          Users.status u = Users.status u0
          /\ Users.avatar u = Users.avatar u0
          /\ Users.preferences u = Users.preferences u0
          /\ Users.lastSeen u = Users.lastSeen u0
          /\ Users.isOnline u = Users.isOnline u0).
Proof.
  destruct (lookup_user name db) as [u|] eqn:Hu.
  - eexists. eexists. exists (next_id db), (now 1%nat).
    split; [apply updateAppearance_run|]. rewrite Hu, getUser_run.
    unfold lookup_user in *. simpl.
    rewrite (first_after_patch Users._id) with (u := u);
      [|reflexivity | exact Hu].
    split; [reflexivity|]. split.
    { simpl. destruct (hd_error_filter_Some _ _ _ Hu) as [_ [_ [_ [He _]]]].
      apply same_user_true. exact He. }
    split; [reflexivity|]. split; [reflexivity|].
    intros u0 [= <-]. simpl. auto.
  - eexists. eexists. exists (N.succ (next_id db)), (now 2%nat).
    split; [apply updateAppearance_run|]. rewrite Hu, getUser_run.
    unfold lookup_user in *. simpl.
    rewrite first_after_insert; [| exact Hu | apply String.eqb_refl].
    repeat split; discriminate.
Qed.

Lemma updateAppearance_then_getUser_witness :
  exists db' u i t,
    run (updateAppearance (fun _ => 9%Z) "bob" "#123456") scenario3
    = inr (tt, db')
    /\ run (getUser "bob") db' = inr (Some u, db')
    /\ Users.username u = "bob"
    /\ Users.color u = "#123456"
    /\ userActivity db'
       = (userActivity scenario3
            ++ [UserActivity.mk i "bob" "color_change" t
                  (Some "#123456")])%list
    /\ (forall u0, lookup_user "bob" scenario3 = Some u0 ->
          Users.status u = Users.status u0
          /\ Users.avatar u = Users.avatar u0
          /\ Users.preferences u = Users.preferences u0
          /\ Users.lastSeen u = Users.lastSeen u0
          /\ Users.isOnline u = Users.isOnline u0).
Proof.
  apply (updateAppearance_then_getUser (fun _ => 9%Z) "bob" "#123456"
           scenario3).
Defined.

(** ** Presence and avatar *)

Lemma updatePresence_run now name online db :
  run (updatePresence now name online) db
  = inr (tt,
         match lookup_user name db with
         | Some u =>
             bump_id
               (set_userActivity
                  (userActivity db ++
                     [UserActivity.mk (next_id db) name
                        (if online then "login" else "logout") (now 2%nat)
                        None])
                  (set_users
                     (tbl_patch Users._id (Users._id u)
                        (fun d =>
                           Users.mk (Users._id d) (Users.username d)
                             (Users.color d) (Users.status d) (Users.avatar d)
                             (Users.preferences d) (Some (now 0%nat))
                             (Some online) (Some (now 1%nat)))
                        (users db)) db))
         | None => db
         end).
Proof.
  unfold run, updatePresence, lookup_user. cbn -[filter tbl_patch].
  destruct (hd_error (filter (same_user name) (users db))); reflexivity.
Qed.

Lemma updateAvatar_run now name av db :
  run (updateAvatar now name av) db
  = inr (tt,
         match lookup_user name db with
         | Some u =>
             bump_id
               (set_userActivity
                  (userActivity db ++
                     [UserActivity.mk (next_id db) name "avatar_change"
                        (now 1%nat) None])
                  (set_users
                     (tbl_patch Users._id (Users._id u)
                        (fun d =>
                           Users.mk (Users._id d) (Users.username d)
                             (Users.color d) (Users.status d) (Some av)
                             (Users.preferences d) (Users.lastSeen d)
                             (Users.isOnline d) (Some (now 0%nat)))
                        (users db)) db))
         | None => db
         end).
Proof.
  unfold run, updateAvatar, lookup_user. cbn -[filter tbl_patch].
  destruct (hd_error (filter (same_user name) (users db))); reflexivity.
Qed.

(** X9: for a username without a [users] record, [updatePresence] and
    [updateAvatar] do nothing: no record is created and nothing is logged,
    unlike [updatePreferences], [updateStatus] and [updateAppearance],
    which create the record. *)
Theorem presence_and_avatar_need_user
    (now : Clock) (name av st : string) (online : bool) (db : Db) :
  (forall u, In u (users db) -> Users.username u <> name) ->
  run (updatePresence now name online) db = inr (tt, db)
  /\ run (updateAvatar now name av) db = inr (tt, db)
  /\ (exists db', run (updateStatus now name st) db = inr (tt, db')
                  /\ length (users db') = S (length (users db))).
Proof.
  intros Hno.
  assert (lookup_user name db = None) as Hu.
  { unfold lookup_user.
    destruct (hd_error (filter (same_user name) (users db))) as [u|] eqn:E;
      [|reflexivity].
    destruct (hd_error_filter_Some _ _ _ E) as [pre [post [Hs [He _]]]].
    exfalso. apply (Hno u); [rewrite Hs; apply in_elt|].
    apply same_user_true. exact He. }
  rewrite updatePresence_run, updateAvatar_run, Hu.
  split; [reflexivity|]. split; [reflexivity|].
  eexists. split; [apply updateStatus_run|].
  rewrite Hu. simpl. rewrite length_app. simpl. lia.
Qed.

Lemma presence_and_avatar_need_user_witness :
  run (updatePresence (fun _ => 9%Z) "zoe" true) crowded = inr (tt, crowded)
  /\ run (updateAvatar (fun _ => 9%Z) "zoe" "cat.png") crowded
     = inr (tt, crowded)
  /\ (exists db',
        run (updateStatus (fun _ => 9%Z) "zoe" "away") crowded = inr (tt, db')
        /\ length (users db') = S (length (users crowded))).
Proof.
  apply (presence_and_avatar_need_user (fun _ => 9%Z) "zoe" "cat.png" "away"
           true crowded).
  intros u [].
Defined.

Lemma getOnlineUsers_run db :
  run getOnlineUsers db = inr (filter is_online (users db), db).
Proof. reflexivity. Qed.

(** X10: after [updatePresence] for a username that has a record,
    [getUser] returns it with the [isOnline] flag just written, and
    [getOnlineUsers] contains it exactly when the flag is [true]; a
    [login] or [logout] entry is appended to the activity log. *)
Theorem updatePresence_then_online
    (now : Clock) (name : string) (online : bool) (db : Db)
    (u0 : Users.doc) :
  lookup_user name db = Some u0 ->
  exists db' u l i,
    run (updatePresence now name online) db = inr (tt, db')
    /\ run (getUser name) db' = inr (Some u, db')
    /\ Users.isOnline u = Some online
    /\ run getOnlineUsers db' = inr (l, db')
    /\ (In u l <-> online = true)
    /\ userActivity db'
       = (userActivity db
            ++ [UserActivity.mk i name (if online then "login" else "logout")
                  (now 2%nat) None])%list.
Proof.
  intros Hu.
  eexists. eexists. eexists. exists (next_id db).
  split; [apply updatePresence_run|]. rewrite Hu, getUser_run.
  unfold lookup_user in *. simpl.
  rewrite (first_after_patch Users._id) with (u := u0);
    [|reflexivity | exact Hu].
  split; [reflexivity|]. split; [reflexivity|].
  split; [reflexivity|]. split; [|reflexivity].
  rewrite filter_In. unfold is_online at 1. simpl.
  split.
  - intros [_ H]. destruct online; [reflexivity | discriminate].
  - intros ->. split; [|reflexivity].
    destruct (hd_error_filter_Some _ _ _ Hu) as [pre [post [Hs _]]].
    unfold tbl_patch. apply in_map_iff. exists u0.
    rewrite N.eqb_refl. split; [reflexivity|]. rewrite Hs. apply in_elt.
Qed.

Lemma updatePresence_then_online_witness :
  exists db' u l i,
    run (updatePresence (fun _ => 9%Z) "bob" false) scenario3 = inr (tt, db')
    /\ run (getUser "bob") db' = inr (Some u, db')
    /\ Users.isOnline u = Some false
    /\ run getOnlineUsers db' = inr (l, db')
    /\ (In u l <-> false = true)
    /\ userActivity db'
       = (userActivity scenario3
            ++ [UserActivity.mk i "bob" "logout" 9%Z None])%list.
Proof.
  apply (updatePresence_then_online (fun _ => 9%Z) "bob" false scenario3
           (Users.mk 3%N "bob" "#000000" "" None prefs0 (Some 2%Z)
              (Some true) (Some 2%Z))).
  vm_compute. reflexivity.
Defined.

(** ** What no mutation of convex/users.ts does to [users] *)

Lemma user_keys_patch i f db :
  (forall d, Users._id (f d) = Users._id d
             /\ Users.username (f d) = Users.username d) ->
  map (fun d => (Users._id d, Users.username d))
      (tbl_patch Users._id i f (users db))
  = user_keys db.
Proof.
  intros Hf. unfold user_keys, tbl_patch. rewrite map_map. apply map_ext.
  intros d. destruct (N.eqb (Users._id d) i); [|reflexivity].
  destruct (Hf d) as [-> ->]. reflexivity.
Qed.

Ltac user_keys_case :=
  unfold user_keys at 1; simpl;
  first
    [ rewrite user_keys_patch by (intros; split; reflexivity);
      exists []; symmetry; apply app_nil_r
    | rewrite map_app; eexists; reflexivity
    | exists []; symmetry; apply app_nil_r ].

(** One mutation keeps the ids and usernames of [users], in order, and
    may add some at the end. *)
Lemma apply_mutation_user_keys (now : Clock) (m : UsersMutation) (db : Db) :
  exists added,
    user_keys (apply_mutation db (now, m)) = (user_keys db ++ added)%list.
Proof.
  destruct m as [args|name prefs|name st|name col|name online|name av];
    unfold apply_mutation; cbn [fst snd handler].
  - destruct (lookup_account args db) as [e|] eqn:Hl.
    + rewrite (saveAccount_existing _ _ _ _ Hl). user_keys_case.
    + rewrite (saveAccount_new _ _ _ Hl). unfold created.
      destruct (lookup_user (Args.username args) db); user_keys_case.
  - rewrite updatePreferences_run.
    destruct (lookup_user name db); user_keys_case.
  - rewrite updateStatus_run.
    destruct (lookup_user name db); user_keys_case.
  - rewrite updateAppearance_run.
    destruct (lookup_user name db); user_keys_case.
  - rewrite updatePresence_run.
    destruct (lookup_user name db); user_keys_case.
  - rewrite updateAvatar_run.
    destruct (lookup_user name db); user_keys_case.
Qed.

(** X11: no mutation of convex/users.ts deletes or renames a [users]
    record, or changes its id: the ids and usernames present before a
    sequence of calls are, in the same order, a prefix of those present
    after it. *)
Theorem users_never_removed (l : list (Clock * UsersMutation)) (db : Db) :
  exists added,
    user_keys (apply_mutations l db) = (user_keys db ++ added)%list.
Proof.
  unfold apply_mutations. revert db.
  induction l as [|[now m] l IH]; cbn [fold_left]; intros db.
  - exists []. symmetry. apply app_nil_r.
  - destruct (IH (apply_mutation db (now, m))) as [added2 H2].
    destruct (apply_mutation_user_keys now m db) as [added1 H1].
    exists (added1 ++ added2)%list.
    rewrite H2, H1, app_assoc. reflexivity.
Qed.

Lemma lookup_user_taken name db :
  lookup_user name db <> None <-> In name (map snd (user_keys db)).
Proof.
  unfold lookup_user, user_keys. rewrite map_map. simpl. split.
  - intros H.
    destruct (hd_error (filter (same_user name) (users db))) as [u|] eqn:E;
      [|contradiction].
    destruct (hd_error_filter_Some _ _ _ E) as [pre [post [Hs [He _]]]].
    apply in_map_iff. exists u. split; [apply same_user_true; exact He|].
    rewrite Hs. apply in_elt.
  - intros Hin E. apply in_map_iff in Hin. destruct Hin as [u [Hn Hu]].
    pose proof (hd_error_filter_None _ _ E u Hu) as Hp.
    apply same_user_true in Hn. congruence.
Qed.

(** X12: a username that [checkUsername] reports as taken is still
    reported as taken after any mutation of convex/users.ts. *)
Theorem username_stays_taken
    (now : Clock) (m : UsersMutation) (name : string) (db : Db) :
  run (checkUsername name) db = inr (mkUsernameCheck true, db) ->
  run (checkUsername name) (apply_mutation db (now, m))
  = inr (mkUsernameCheck true, apply_mutation db (now, m)).
Proof.
  rewrite !checkUsername_run. intros H.
  assert (lookup_user name db <> None) as Ht.
  { destruct (lookup_user name db); [discriminate | congruence]. }
  apply lookup_user_taken in Ht.
  destruct (apply_mutation_user_keys now m db) as [added Hk].
  assert (lookup_user name (apply_mutation db (now, m)) <> None) as Ht'.
  { apply lookup_user_taken. rewrite Hk, map_app. apply in_or_app. left.
    exact Ht. }
  destruct (lookup_user name (apply_mutation db (now, m)));
    [reflexivity | contradiction].
Qed.

Lemma username_stays_taken_witness :
  run (checkUsername "bob")
      (apply_mutation scenario3
         (fun _ => 9%Z, UpdatePresence "bob" false))
  = inr (mkUsernameCheck true,
         apply_mutation scenario3 (fun _ => 9%Z, UpdatePresence "bob" false)).
Proof.
  apply (username_stays_taken (fun _ => 9%Z) (UpdatePresence "bob" false)
           "bob" scenario3).
  vm_compute. reflexivity.
Defined.

(** X13: after [saveAccount] has created a new pair, [checkUsername]
    reports the username as taken. *)
Theorem saveAccount_new_takes_username
    (now : Clock) (args : Args.t) (db : Db) :
  lookup_account args db = None ->
  exists db',
    run (saveAccount now args) db = inr (tt, db')
    /\ run (checkUsername (Args.username args)) db'
       = inr (mkUsernameCheck true, db').
Proof.
  intros Hl. exists (created now args db).
  split; [apply saveAccount_new; exact Hl|].
  rewrite checkUsername_run.
  assert (lookup_user (Args.username args) (created now args db) <> None)
    as Ht.
  { unfold created.
    destruct (lookup_user (Args.username args) db) as [u|] eqn:Hu;
      unfold lookup_user in *; simpl.
    - rewrite (first_after_patch Users._id) with (u := u);
        [discriminate | reflexivity | exact Hu].
    - rewrite first_after_insert;
        [discriminate | exact Hu | apply String.eqb_refl]. }
  destruct (lookup_user (Args.username args) (created now args db));
    [reflexivity | contradiction].
Qed.

Lemma saveAccount_new_takes_username_witness :
  exists db',
    run (saveAccount (fun _ => 4%Z)
           (Args.mk "D1" "dave" "#000000" "" None prefs0)) scenario3
    = inr (tt, db')
    /\ run (checkUsername "dave") db' = inr (mkUsernameCheck true, db').
Proof.
  apply (saveAccount_new_takes_username (fun _ => 4%Z)
           (Args.mk "D1" "dave" "#000000" "" None prefs0) scenario3).
  vm_compute. reflexivity.
Defined.

(** ** The activity log *)



(** * Facts on convex/messages.ts *)

Lemma wf_messages_NoDup db :
  wf db = true -> NoDup (map Messages._id (messages db)).
Proof.
  unfold wf, all_ids. rewrite andb_true_iff. intros [H _].
  apply distinct_NoDup in H.
  apply NoDup_app_remove_l, NoDup_app_remove_l, NoDup_app_remove_r in H.
  exact H.
Qed.

Lemma find_absent {D} (id_of : D -> Id) i (t : list D) :
  ~ In i (map id_of t) -> find (fun d => N.eqb (id_of d) i) t = None.
Proof.
  induction t as [|d t IH]; simpl; intros Hn; [reflexivity|].
  destruct (N.eqb_spec (id_of d) i) as [E|E].
  - exfalso. apply Hn. left. exact E.
  - apply IH. intros Hin. apply Hn. right. exact Hin.
Qed.

(** With pairwise different ids, [get] by the id of a document of the
    table returns that document. *)
Lemma find_by_id {D} (id_of : D -> Id) (pre post : list D) m :
  NoDup (map id_of (pre ++ m :: post)) ->
  find (fun d => N.eqb (id_of d) (id_of m)) (pre ++ m :: post) = Some m.
Proof.
  intros Hnd. destruct (NoDup_ids_split id_of _ _ _ Hnd) as [Hpre _].
  induction pre as [|d pre IH]; simpl.
  - rewrite N.eqb_refl. reflexivity.
  - destruct (N.eqb_spec (id_of d) (id_of m)) as [E|E].
    + exfalso. apply Hpre. left. exact E.
    + apply IH.
      * simpl in Hnd. inversion Hnd; assumption.
      * intros Hin. apply Hpre. right. exact Hin.
Qed.

Lemma editMessage_run i newText name db :
  runX (editMessage i newText name) db
  = match find (fun m => N.eqb (Messages._id m) i) (messages db) with
    | None => inl (ErrorMessage "Message not found")
    | Some m =>
        if String.eqb (Messages.username m) name
        then inr (true,
                  set_messages
                    (tbl_patch Messages._id i (edited_message newText)
                       (messages db)) db)
        else inl (ErrorMessage "You can only edit your own messages")
    end.
Proof.
  unfold runX, editMessage, db_get_message, db_patch_message.
  cbn -[find tbl_patch String.eqb].
  destruct (find _ (messages db)) as [m|] eqn:Hf; [|reflexivity].
  destruct (String.eqb (Messages.username m) name); cbn -[find tbl_patch];
    [rewrite Hf|]; reflexivity.
Qed.

Lemma deleteMessage_run i name db :
  runX (deleteMessage i name) db
  = match find (fun m => N.eqb (Messages._id m) i) (messages db) with
    | None => inl (ErrorMessage "Message not found")
    | Some m =>
        if String.eqb (Messages.username m) name
        then inr (true,
                  set_messages
                    (tbl_patch Messages._id i deleted_message (messages db))
                    db)
        else inl (ErrorMessage "You can only delete your own messages")
    end.
Proof.
  unfold runX, deleteMessage, db_get_message, db_patch_message.
  cbn -[find tbl_patch String.eqb].
  destruct (find _ (messages db)) as [m|] eqn:Hf; [|reflexivity].
  destruct (String.eqb (Messages.username m) name); cbn -[find tbl_patch];
    [rewrite Hf|]; reflexivity.
Qed.

(** X15: [editMessage] by the author of a stored message succeeds and
    rewrites that message alone: its text is replaced and [edited] is set,
    every other field, every other message and every other table are
    kept. *)
Theorem editMessage_by_author
    (newText : string) (db : Db) (pre post : list Messages.doc)
    (m : Messages.doc) :
  wf db = true ->
  messages db = (pre ++ m :: post)%list ->
  runX (editMessage (Messages._id m) newText (Messages.username m)) db
  = inr (true,
         set_messages
           (pre
              ++ Messages.mk (Messages._id m) newText (Messages.username m)
                   (Messages.timestamp m) (Messages.color m) (Some true)
                   (Messages.deleted m) (Messages.reactions m)
                   (Messages.delivered m) (Messages.readBy m)
              :: post) db).
Proof.
  intros Hwf Hs. pose proof (wf_messages_NoDup _ Hwf) as Hnd.
  rewrite Hs in Hnd.
  rewrite editMessage_run, Hs, (find_by_id Messages._id) by exact Hnd.
  rewrite String.eqb_refl, (tbl_patch_split Messages._id) by exact Hnd.
  reflexivity.
Qed.

(** X16: [editMessage] and [deleteMessage] throw, and so change nothing,
    when the caller is not the author of the message or when no message
    has the id. *)
Theorem edit_and_delete_author_only
    (i : Id) (newText name : string) (db : Db) :
  (forall m, In m (messages db) ->
     Messages._id m = i -> Messages.username m <> name) ->
  exists e1 e2,
    runX (editMessage i newText name) db = inl (ErrorMessage e1)
    /\ runX (deleteMessage i name) db = inl (ErrorMessage e2)
    /\ (In i (map Messages._id (messages db)) ->
        e1 = "You can only edit your own messages"
        /\ e2 = "You can only delete your own messages")
    /\ (~ In i (map Messages._id (messages db)) ->
        e1 = "Message not found" /\ e2 = "Message not found").
Proof.
  intros Hother. rewrite editMessage_run, deleteMessage_run.
  destruct (find (fun m => N.eqb (Messages._id m) i) (messages db))
    as [m|] eqn:Hf.
  - apply find_some in Hf. destruct Hf as [Hin Hid].
    apply N.eqb_eq in Hid.
    destruct (String.eqb_spec (Messages.username m) name) as [E|E].
    + exfalso. exact (Hother m Hin Hid E).
    + exists "You can only edit your own messages",
             "You can only delete your own messages".
      split; [reflexivity|]. split; [reflexivity|].
      split; [intros _; split; reflexivity|].
      intros Hn. exfalso. apply Hn. rewrite <- Hid. apply in_map. exact Hin.
  - exists "Message not found", "Message not found".
    split; [reflexivity|]. split; [reflexivity|].
    split; [|intros _; split; reflexivity].
    intros Hin. exfalso. apply in_map_iff in Hin.
    destruct Hin as [m [Hid Hin]].
    pose proof (find_none _ _ Hf m Hin) as Hn. simpl in Hn.
    rewrite Hid, N.eqb_refl in Hn. discriminate.
Qed.

Lemma editMessage_by_author_witness :
  runX (editMessage 1%N "yo!" "bob") chatroom
  = inr (true,
         set_messages
           ([Messages.mk 0%N "hi" "alice" 10 "#000000" None None None
               (Some true) (Some [])]
              ++ Messages.mk 1%N "yo!" "bob" 11 "#000000" (Some true) None
                   (Some [("alice", "+1")]) (Some true) (Some ["alice"])
              :: []) chatroom).
Proof.
  apply (editMessage_by_author "yo!" chatroom
           [Messages.mk 0%N "hi" "alice" 10 "#000000" None None None
              (Some true) (Some [])]
           []
           (Messages.mk 1%N "yo" "bob" 11 "#000000" None None
              (Some [("alice", "+1")]) (Some true) (Some ["alice"]))).
  - vm_compute. reflexivity.
  - reflexivity.
Defined.

Lemma edit_and_delete_author_only_witness :
  exists e1 e2,
    runX (editMessage 1%N "x" "alice") chatroom = inl (ErrorMessage e1)
    /\ runX (deleteMessage 1%N "alice") chatroom = inl (ErrorMessage e2)
    /\ (In 1%N (map Messages._id (messages chatroom)) ->
        e1 = "You can only edit your own messages"
        /\ e2 = "You can only delete your own messages")
    /\ (~ In 1%N (map Messages._id (messages chatroom)) ->
        e1 = "Message not found" /\ e2 = "Message not found").
Proof.
  apply (edit_and_delete_author_only 1%N "x" "alice" chatroom).
  intros m Hm. vm_compute in Hm.
  destruct Hm as [<-|[<-|[]]]; simpl; intros; discriminate.
Defined.

(** ** Deleting is marking *)

Lemma list_run db :
  runX MessagesTs.list db = inr (rev (firstn 100 (rev (messages db))), db).
Proof. reflexivity. Qed.

Lemma searchMessages_run f q db :
  runX (searchMessages f q) db
  = inr (filter
           (fun m =>
              negb (match Messages.deleted m with
                    | Some true => true
                    | _ => false
                    end)
              && f (Messages.text m) q) (messages db), db).
Proof. reflexivity. Qed.

(** X17: [deleteMessage] by the author removes no document: the message
    stays in the table with [deleted] set, so [list] still returns it,
    while [searchMessages] returns it for no query. *)
Theorem deleteMessage_marks
    (db : Db) (pre post : list Messages.doc) (m : Messages.doc) :
  wf db = true ->
  messages db = (pre ++ m :: post)%list ->
  exists db',
    runX (deleteMessage (Messages._id m) (Messages.username m)) db
    = inr (true, db')
    /\ messages db' = (pre ++ deleted_message m :: post)%list
    /\ ((length (messages db) <= 100)%nat ->
        runX MessagesTs.list db' = inr (messages db', db'))
    /\ (forall f q l,
          runX (searchMessages f q) db' = inr (l, db') ->
          ~ In (Messages._id m) (map Messages._id l)).
Proof.
  intros Hwf Hs. pose proof (wf_messages_NoDup _ Hwf) as Hnd.
  rewrite Hs in Hnd.
  eexists. split.
  { rewrite deleteMessage_run, Hs, (find_by_id Messages._id) by exact Hnd.
    rewrite String.eqb_refl, (tbl_patch_split Messages._id) by exact Hnd.
    reflexivity. }
  split; [reflexivity|]. split.
  - intros Hlen. rewrite list_run. cbn [messages set_messages].
    rewrite firstn_all2, rev_involutive; [reflexivity|].
    rewrite length_rev. rewrite Hs in Hlen.
    rewrite length_app in *. cbn [length] in *. exact Hlen.
  - intros f q l Hl. rewrite searchMessages_run in Hl.
    injection Hl as <-. simpl. intros Hin.
    apply in_map_iff in Hin. destruct Hin as [x [Hid Hx]].
    apply filter_In in Hx. destruct Hx as [Hx Hp].
    assert (x = deleted_message m) as ->.
    { apply (NoDup_ids_inj Messages._id (pre ++ deleted_message m :: post));
        [ | exact Hx | apply in_elt | exact Hid ].
      rewrite map_app in *. simpl in *. exact Hnd. }
    simpl in Hp. discriminate.
Qed.

Lemma deleteMessage_marks_witness :
  exists db',
    runX (deleteMessage 1%N "bob") chatroom = inr (true, db')
    /\ messages db'
       = ([Messages.mk 0%N "hi" "alice" 10 "#000000" None None None
             (Some true) (Some [])]
            ++ deleted_message
                 (Messages.mk 1%N "yo" "bob" 11 "#000000" None None
                    (Some [("alice", "+1")]) (Some true) (Some ["alice"]))
            :: [])%list
    /\ ((length (messages chatroom) <= 100)%nat ->
        runX MessagesTs.list db' = inr (messages db', db'))
    /\ (forall f q l,
          runX (searchMessages f q) db' = inr (l, db') ->
          ~ In 1%N (map Messages._id l)).
Proof.
  apply (deleteMessage_marks chatroom
           [Messages.mk 0%N "hi" "alice" 10 "#000000" None None None
              (Some true) (Some [])]
           []
           (Messages.mk 1%N "yo" "bob" 11 "#000000" None None
              (Some [("alice", "+1")]) (Some true) (Some ["alice"]))).
  - vm_compute. reflexivity.
  - reflexivity.
Defined.

(** ** Reactions *)






(** ** Read receipts *)





(** ** Sending and listing *)

(** X20: [list] reads without writing and returns the latest 100 messages
    in the order they were sent. *)
Theorem list_latest_100 (db : Db) :
  exists l older,
    runX MessagesTs.list db = inr (l, db)
    /\ messages db = (older ++ l)%list
    /\ length l = Nat.min 100 (length (messages db)).
Proof.
  exists (skipn (length (messages db) - 100) (messages db)),
         (firstn (length (messages db) - 100) (messages db)).
  split.
  { rewrite list_run, firstn_rev, rev_involutive. reflexivity. }
  split; [symmetry; apply firstn_skipn|].
  rewrite length_skipn. lia.
Qed.

(** X21: a message just sent is the last one [list] returns; it carries
    the text, author and color given, the time of the call, and starts
    delivered, read by nobody, neither edited nor deleted and without
    reactions. *)
Theorem send_then_list (now : Clock) (text name col : string) (db : Db) :
  exists i db' earlier,
    runX (send now text name col) db = inr (i, db')
    /\ runX MessagesTs.list db'
       = inr ((earlier
                 ++ [Messages.mk i text name (now 0%nat) col None None None
                       (Some true) (Some [])])%list, db')
    /\ (length earlier <= 99)%nat.
Proof.
  exists (next_id db). eexists.
  exists (rev (firstn 99 (rev (messages db)))).
  split; [reflexivity|]. split.
  - rewrite list_run. simpl. rewrite rev_app_distr. simpl. reflexivity.
  - rewrite length_rev, length_firstn. lia.
Qed.

(** ** Typing indicators *)

Lemma setTyping_run now name isTyping db :
  runX (setTyping now name isTyping) db
  = inr (true,
         match hd_error (filter (same_typist name) (typing db)) with
         | Some e =>
             if isTyping
             then set_typing
                    (tbl_patch Typing._id (Typing._id e)
                       (fun d => Typing.mk (Typing._id d) (Typing.username d)
                                   (now 0%nat))
                       (typing db)) db
             else set_typing
                    (tbl_delete Typing._id (Typing._id e) (typing db)) db
         | None =>
             if isTyping
             then bump_id
                    (set_typing
                       (typing db ++ [Typing.mk (next_id db) name (now 0%nat)])
                       db)
             else db
         end).
Proof.
  unfold runX, setTyping. destruct isTyping;
    cbn -[filter tbl_patch tbl_delete];
    destruct (hd_error (filter (same_typist name) (typing db)));
    reflexivity.
Qed.

Lemma getTypingUsers_run now db :
  runX (getTypingUsers now) db
  = inr (filter (fun t => Z.ltb (now 0%nat - Typing.timestamp t) 5000)
           (typing db), db).
Proof. reflexivity. Qed.

Lemma NoDup_map_inj {A B} (k : A -> B) (t : list A) a b :
  NoDup (map k t) -> In a t -> In b t -> k a = k b -> a = b.
Proof.
  induction t as [|d t IH]; simpl; intros Hnd Ha Hb E; [contradiction|].
  inversion Hnd as [|? ? Hni Hnd']; subst.
  destruct Ha as [->|Ha], Hb as [->|Hb].
  - reflexivity.
  - exfalso. apply Hni. rewrite E. apply in_map. exact Hb.
  - exfalso. apply Hni. rewrite <- E. apply in_map. exact Ha.
  - apply IH; assumption.
Qed.

Lemma same_typist_true name d :
  same_typist name d = true <-> Typing.username d = name.
Proof. apply String.eqb_eq. Qed.

Lemma first_typist_none name db :
  hd_error (filter (same_typist name) (typing db)) = None ->
  ~ In name (typists db).
Proof.
  intros Hn Hin. unfold typists in Hin. apply in_map_iff in Hin.
  destruct Hin as [d [Hd Hin]].
  pose proof (hd_error_filter_None _ _ Hn d Hin) as Hp.
  apply same_typist_true in Hd. congruence.
Qed.

Lemma first_typist_some name db e :
  hd_error (filter (same_typist name) (typing db)) = Some e ->
  In e (typing db) /\ Typing.username e = name.
Proof.
  intros He. destruct (hd_error_filter_Some _ _ _ He) as [pre [post [Hs [Hp _]]]].
  split; [rewrite Hs; apply in_elt | apply same_typist_true; exact Hp].
Qed.

Lemma typists_patch i t0 db :
  map Typing.username
      (tbl_patch Typing._id i
         (fun d => Typing.mk (Typing._id d) (Typing.username d) t0)
         (typing db))
  = typists db.
Proof.
  unfold typists, tbl_patch. rewrite map_map. apply map_ext.
  intros d. destruct (N.eqb (Typing._id d) i); reflexivity.
Qed.

Lemma setTyping_typists_NoDup now name isTyping db db' :
  runX (setTyping now name isTyping) db = inr (true, db') ->
  NoDup (typists db) -> NoDup (typists db').
Proof.
  rewrite setTyping_run. intros [= <-] Hnd.
  destruct (hd_error (filter (same_typist name) (typing db))) as [e|] eqn:He;
    destruct isTyping; unfold typists at 1; cbn [typing set_typing bump_id].
  - rewrite typists_patch. exact Hnd.
  - apply NoDup_map_filter. exact Hnd.
  - rewrite map_app. apply NoDup_app; [exact Hnd | |].
    + repeat constructor. intros [].
    + intros a Ha [<-|[]]. exact (first_typist_none _ _ He Ha).
  - exact Hnd.
Qed.

(** X22: [setTyping] keeps at most one [typing] record per username;
    after it, the username has a record exactly when [isTyping] was
    [true]. *)
Theorem setTyping_one_record
    (now : Clock) (name : string) (isTyping : bool) (db : Db) :
  NoDup (typists db) ->
  exists db',
    runX (setTyping now name isTyping) db = inr (true, db')
    /\ NoDup (typists db')
    /\ (In name (typists db') <-> isTyping = true).
Proof.
  intros Hnd. eexists. split; [apply setTyping_run|].
  split; [apply (setTyping_typists_NoDup now name isTyping db);
          [apply setTyping_run | exact Hnd]|].
  destruct (hd_error (filter (same_typist name) (typing db))) as [e|] eqn:He.
  - destruct (first_typist_some _ _ _ He) as [Hin Hname].
    destruct isTyping; unfold typists at 1; cbn [typing set_typing].
    + rewrite typists_patch. split; [reflexivity|]. intros _.
      unfold typists. rewrite <- Hname. apply in_map. exact Hin.
    + split; [|discriminate]. intros Hi. exfalso.
      apply in_map_iff in Hi. destruct Hi as [d [Hd Hdin]].
      apply filter_In in Hdin. destruct Hdin as [Hdin Hid].
      assert (d = e) as ->.
      { apply (NoDup_map_inj Typing.username (typing db)); auto.
        congruence. }
      rewrite N.eqb_refl in Hid. discriminate.
  - pose proof (first_typist_none _ _ He) as Hni.
    destruct isTyping.
    + unfold typists at 1. cbn [typing set_typing bump_id].
      rewrite map_app. split; [reflexivity|]. intros _.
      apply in_or_app. right. left. reflexivity.
    + split; [contradiction | discriminate].
Qed.

Lemma setTyping_one_record_witness :
  exists db',
    runX (setTyping (fun _ => 200%Z) "alice" false) chatroom = inr (true, db')
    /\ NoDup (typists db')
    /\ (In "alice" (typists db') <-> false = true).
Proof.
  apply (setTyping_one_record (fun _ => 200%Z) "alice" false chatroom).
  repeat constructor. intros [].
Defined.

(** X23: starting without typing records, after any sequence of
    [setTyping] calls [getTypingUsers] lists a username at most once. *)
Theorem typing_users_listed_once
    (calls : list (Clock * string * bool)) (now : Clock) (db0 : Db) :
  typing db0 = [] ->
  exists l,
    runX (getTypingUsers now) (typing_steps calls db0)
    = inr (l, typing_steps calls db0)
    /\ NoDup (map Typing.username l).
Proof.
  intros H0. eexists. split; [apply getTypingUsers_run|].
  apply NoDup_map_filter. fold (typists (typing_steps calls db0)).
  assert (NoDup (typists db0)) as Hnd.
  { unfold typists. rewrite H0. constructor. }
  clear H0. revert db0 Hnd. unfold typing_steps.
  induction calls as [|[[t name] b] calls IH]; cbn [fold_left];
    intros db0 Hnd; [exact Hnd|].
  apply IH. unfold typing_step. cbn [fst snd].
  rewrite setTyping_run.
  apply (setTyping_typists_NoDup t name b db0);
    [apply setTyping_run | exact Hnd].
Qed.

Lemma typing_users_listed_once_witness :
  exists l,
    runX (getTypingUsers (fun _ => 150%Z))
         (typing_steps
            [(fun _ => 100%Z, "alice", true); (fun _ => 120%Z, "alice", true)]
            empty_db)
    = inr (l,
           typing_steps
             [(fun _ => 100%Z, "alice", true);
              (fun _ => 120%Z, "alice", true)]
             empty_db)
    /\ NoDup (map Typing.username l).
Proof.
  apply (typing_users_listed_once
           [(fun _ => 100%Z, "alice", true); (fun _ => 120%Z, "alice", true)]
           (fun _ => 150%Z) empty_db).
  reflexivity.
Defined.

(** X24: after [setTyping] with [isTyping = true] at time [t],
    [getTypingUsers] at time [t'] lists the username exactly when
    [t' - t < 5000]; the time of an earlier call no longer counts. *)
Theorem typing_window (now now' : Clock) (name : string) (db : Db) :
  NoDup (typists db) ->
  exists db' l,
    runX (setTyping now name true) db = inr (true, db')
    /\ runX (getTypingUsers now') db' = inr (l, db')
    /\ (In name (map Typing.username l)
        <-> (now' 0%nat - now 0%nat < 5000)%Z).
Proof.
  intros Hnd. eexists. eexists.
  split; [apply setTyping_run|]. split; [apply getTypingUsers_run|].
  destruct (hd_error (filter (same_typist name) (typing db))) as [e|] eqn:He.
  - destruct (first_typist_some _ _ _ He) as [Hin Hname]. simpl. split.
    + intros Hi. apply in_map_iff in Hi. destruct Hi as [d [Hd Hdin]].
      apply filter_In in Hdin. destruct Hdin as [Hdin Ht].
      unfold tbl_patch in Hdin. apply in_map_iff in Hdin.
      destruct Hdin as [x [Hx Hxin]].
      assert (Typing.username x = name) as Hxn.
      { destruct (N.eqb _ _); subst d; exact Hd. }
      assert (x = e) as ->.
      { apply (NoDup_map_inj Typing.username (typing db)); auto.
        congruence. }
      rewrite N.eqb_refl in Hx. subst d. simpl in Ht.
      apply Z.ltb_lt. exact Ht.
    + intros Hlt. apply in_map_iff.
      exists (Typing.mk (Typing._id e) (Typing.username e) (now 0%nat)).
      split; [exact Hname|]. apply filter_In. split.
      * apply (tbl_patch_hit Typing._id
                 (fun d => Typing.mk (Typing._id d) (Typing.username d)
                             (now 0%nat))). exact Hin.
      * simpl. apply Z.ltb_lt. exact Hlt.
  - simpl. rewrite filter_app, map_app. simpl. split.
    + intros Hi. apply in_app_or in Hi. destruct Hi as [Hi|Hi].
      * exfalso. apply (first_typist_none _ _ He).
        apply in_map_iff in Hi. destruct Hi as [d [Hd Hdin]].
        apply filter_In in Hdin. unfold typists. rewrite <- Hd.
        apply in_map. tauto.
      * destruct (Z.ltb_spec (now' 0%nat - now 0%nat) 5000); [assumption|].
        destruct Hi.
    + intros Hlt. apply in_or_app. right.
      apply Z.ltb_lt in Hlt. rewrite Hlt. left. reflexivity.
Qed.

Lemma typing_window_witness :
  exists db' l,
    runX (setTyping (fun _ => 6000%Z) "alice" true) chatroom = inr (true, db')
    /\ runX (getTypingUsers (fun _ => 9000%Z)) db' = inr (l, db')
    /\ (In "alice" (map Typing.username l) <-> (9000 - 6000 < 5000)%Z).
Proof.
  apply (typing_window (fun _ => 6000%Z) (fun _ => 9000%Z) "alice" chatroom).
  repeat constructor. intros [].
Defined.

(** ** One [users] record per username *)

Lemma usernames_patch i f db :
  (forall d, Users.username (f d) = Users.username d) ->
  map Users.username (tbl_patch Users._id i f (users db))
  = map Users.username (users db).
Proof.
  intros Hf. unfold tbl_patch. rewrite map_map. apply map_ext.
  intros d. destruct (N.eqb (Users._id d) i); [apply Hf | reflexivity].
Qed.

Lemma usernames_insert name db d :
  lookup_user name db = None ->
  Users.username d = name ->
  NoDup (map Users.username (users db)) ->
  NoDup (map Users.username (users db ++ [d])).
Proof.
  intros Hl Hd Hnd. rewrite map_app. simpl.
  apply NoDup_app; [exact Hnd | repeat constructor; intros [] |].
  intros a Ha [<-|[]]. rewrite Hd in Ha.
  apply in_map_iff in Ha. destruct Ha as [u [Hu Hin]].
  pose proof (hd_error_filter_None _ _ Hl u Hin) as Hp.
  apply same_user_true in Hu. congruence.
Qed.

Ltac usernames_case Hu Hnd :=
  simpl;
  first
    [ rewrite usernames_patch by reflexivity; exact Hnd
    | eapply usernames_insert; [exact Hu | reflexivity | exact Hnd]
    | exact Hnd ].

Lemma usernames_unique_step now m db :
  NoDup (map Users.username (users db)) ->
  NoDup (map Users.username (users (apply_mutation db (now, m)))).
Proof.
  intros Hnd.
  destruct m as [args|name prefs|name st|name col|name online|name av];
    unfold apply_mutation; cbn [fst snd handler].
  - destruct (lookup_account args db) as [e|] eqn:Hl.
    + rewrite (saveAccount_existing _ _ _ _ Hl). exact Hnd.
    + rewrite (saveAccount_new _ _ _ Hl). unfold created.
      destruct (lookup_user (Args.username args) db) eqn:Hu;
        usernames_case Hu Hnd.
  - rewrite updatePreferences_run.
    destruct (lookup_user name db) eqn:Hu; usernames_case Hu Hnd.
  - rewrite updateStatus_run.
    destruct (lookup_user name db) eqn:Hu; usernames_case Hu Hnd.
  - rewrite updateAppearance_run.
    destruct (lookup_user name db) eqn:Hu; usernames_case Hu Hnd.
  - rewrite updatePresence_run.
    destruct (lookup_user name db) eqn:Hu; usernames_case Hu Hnd.
  - rewrite updateAvatar_run.
    destruct (lookup_user name db) eqn:Hu; usernames_case Hu Hnd.
Qed.

(** X25: starting without user records, after any sequence of mutations of
    convex/users.ts no two [users] records have the same username. *)
Theorem usernames_unique (l : list (Clock * UsersMutation)) (db0 : Db) :
  users db0 = [] ->
  NoDup (map Users.username (users (apply_mutations l db0))).
Proof.
  intros H0.
  assert (NoDup (map Users.username (users db0))) as Hnd.
  { rewrite H0. constructor. }
  clear H0. revert db0 Hnd. unfold apply_mutations.
  induction l as [|[now m] l IH]; simpl; intros db0 Hnd; [exact Hnd|].
  apply IH, usernames_unique_step, Hnd.
Qed.

Lemma usernames_unique_witness :
  users empty_db = []
  /\ NoDup (map Users.username
              (users (apply_mutations
                        [(fun _ => 1%Z, UpdateStatus "alice" "hi");
                         (fun _ => 2%Z,
                          SaveAccount
                            (Args.mk "D1" "alice" "#000000" "" None prefs0));
                         (fun _ => 3%Z, UpdateAppearance "bob" "#ff0000")]
                        empty_db))).
Proof.
  split; [reflexivity|].
  apply (usernames_unique
           [(fun _ => 1%Z, UpdateStatus "alice" "hi");
            (fun _ => 2%Z,
             SaveAccount (Args.mk "D1" "alice" "#000000" "" None prefs0));
            (fun _ => 3%Z, UpdateAppearance "bob" "#ff0000")]
           empty_db).
  reflexivity.
Defined.

(** ** Delivery *)

Lemma markDelivered_run i db :
  runX (markDelivered i) db
  = match find (fun m => N.eqb (Messages._id m) i) (messages db) with
    | Some _ =>
        inr (true,
             set_messages
               (tbl_patch Messages._id i
                  (fun d =>
                     Messages.mk (Messages._id d) (Messages.text d)
                       (Messages.username d) (Messages.timestamp d)
                       (Messages.color d) (Messages.edited d)
                       (Messages.deleted d) (Messages.reactions d)
                       (Some true) (Messages.readBy d))
                  (messages db)) db)
    | None => inl (NonexistentDocument i)
    end.
Proof.
  unfold runX, markDelivered, db_patch_message. cbn -[find tbl_patch].
  destruct (find _ (messages db)); reflexivity.
Qed.

Lemma wf_messages_below db m :
  wf db = true -> In m (messages db) -> (Messages._id m < next_id db)%N.
Proof.
  unfold wf, all_ids. rewrite andb_true_iff, forallb_forall.
  intros [_ H] Hm. apply N.ltb_lt, H.
  apply in_or_app. right. apply in_or_app. right. apply in_or_app. left.
  apply in_map. exact Hm.
Qed.

(** X26: a message is stored as delivered by [send] itself: a
    [markDelivered] call on the id [send] returned succeeds and leaves the
    store as it was. *)
Theorem send_then_markDelivered
    (now : Clock) (text name col : string) (db : Db) :
  wf db = true ->
  exists i db',
    runX (send now text name col) db = inr (i, db')
    /\ runX (markDelivered i) db' = inr (true, db').
Proof.
  intros Hwf. exists (next_id db). eexists. split; [reflexivity|].
  rewrite markDelivered_run. simpl.
  set (new := Messages.mk (next_id db) text name (now 0%nat) col None None
                None (Some true) (Some [])).
  assert (NoDup (map Messages._id (messages db ++ [new]))) as Hnd.
  { rewrite map_app. apply NoDup_app.
    - apply wf_messages_NoDup, Hwf.
    - repeat constructor. intros [].
    - intros a Ha [<-|[]]. apply in_map_iff in Ha.
      destruct Ha as [m [Hid Hm]].
      pose proof (wf_messages_below _ _ Hwf Hm) as Hlt.
      simpl in Hid. lia. }
  change (next_id db) with (Messages._id new) at 1 2.
  rewrite (find_by_id Messages._id) by exact Hnd.
  rewrite (tbl_patch_split Messages._id) by exact Hnd.
  reflexivity.
Qed.

Lemma send_then_markDelivered_witness :
  exists i db',
    runX (send (fun _ => 12%Z) "hey" "alice" "#000000") chatroom
    = inr (i, db')
    /\ runX (markDelivered i) db' = inr (true, db').
Proof.
  apply (send_then_markDelivered (fun _ => 12%Z) "hey" "alice" "#000000"
           chatroom).
  vm_compute. reflexivity.
Defined.
